(** * The Observer demonstration of [observer_pattern.py]

    A shallow embedding of the two subjects ([WeatherData], [Button]) and of
    their six observers, over an explicit object store.  Python objects are
    store entries named by a reference; a method is a state transformer that
    may raise.  The store survives a raised exception, as it does in Python. *)

From Stdlib Require Import ZArith String DecimalString.
From Stdlib Require Import PrimFloat FloatOps SpecFloat.
From stdpp Require Import gmap strings list.

(** ** Values and objects *)

(** The numbers held in the measurement fields: the source initialises them
    with the float literal [0.0], the demo passes both floats ([50.0]) and
    ints ([120]), and [set_measurements] stores the int literal [15]. *)
Inductive pyval :=
| PyFloat (f : float)
| PyInt (z : Z).

(** [class ButtonState(IntEnum)]: [ON = auto()] is 1 and [OFF = auto()] is 2. *)
Inductive ButtonState := ON | OFF.

Definition ButtonState_value (s : ButtonState) : Z :=
  match s with ON => 1 | OFF => 2 end.

Definition ButtonState_eqb (a b : ButtonState) : bool :=
  Z.eqb (ButtonState_value a) (ButtonState_value b).

(** An object reference (Python object identity). *)
Abbreviation ref := nat (only parsing).

(** The concrete classes of the module. *)
Inductive class :=
| WeatherData | TemperatureDisplay | HumidityDisplay | PressureDisplay
| PollenDisplay | Button | OnEventListener | OffEventListener.

(** An instance with the attributes its [__init__] creates, in the order of
    the assignments of [__init__]. *)
Inductive object :=
| WeatherDataObj (observers : list ref) (temperature pressure humidity pollen : pyval)
| TemperatureDisplayObj (temperature : pyval) (subject : ref)
| HumidityDisplayObj (humidity : pyval) (subject : ref)
| PressureDisplayObj (pressure : pyval) (subject : ref)
| PollenDisplayObj (pollen : pyval) (subject : ref)
| ButtonObj (_state : ButtonState) (observers : list ref)
| OnEventListenerObj (subject : ref)
| OffEventListenerObj (subject : ref).

Definition class_of (obj : object) : class :=
  match obj with
  | WeatherDataObj _ _ _ _ _ => WeatherData
  | TemperatureDisplayObj _ _ => TemperatureDisplay
  | HumidityDisplayObj _ _ => HumidityDisplay
  | PressureDisplayObj _ _ => PressureDisplay
  | PollenDisplayObj _ _ => PollenDisplay
  | ButtonObj _ _ => Button
  | OnEventListenerObj _ => OnEventListener
  | OffEventListenerObj _ => OffEventListener
  end.

(** *** Attribute reads: [obj.name] *)

Definition attr_observers (obj : object) : option (list ref) :=
  match obj with
  | WeatherDataObj obs _ _ _ _ | ButtonObj _ obs => Some obs
  | _ => None
  end.

Definition attr_temperature (obj : object) : option pyval :=
  match obj with
  | WeatherDataObj _ t _ _ _ | TemperatureDisplayObj t _ => Some t
  | _ => None
  end.

Definition attr_pressure (obj : object) : option pyval :=
  match obj with
  | WeatherDataObj _ _ p _ _ | PressureDisplayObj p _ => Some p
  | _ => None
  end.

Definition attr_humidity (obj : object) : option pyval :=
  match obj with
  | WeatherDataObj _ _ _ h _ | HumidityDisplayObj h _ => Some h
  | _ => None
  end.

Definition attr_pollen (obj : object) : option pyval :=
  match obj with
  | WeatherDataObj _ _ _ _ q | PollenDisplayObj q _ => Some q
  | _ => None
  end.

Definition attr_subject (obj : object) : option ref :=
  match obj with
  | TemperatureDisplayObj _ s | HumidityDisplayObj _ s | PressureDisplayObj _ s
  | PollenDisplayObj _ s | OnEventListenerObj s | OffEventListenerObj s => Some s
  | _ => None
  end.

Definition attr_state (obj : object) : option ButtonState :=
  match obj with
  | ButtonObj st _ => Some st
  | _ => None
  end.

(** *** Attribute writes: [obj.name = v] on an attribute the instance has *)

Definition with_observers (obs : list ref) (obj : object) : option object :=
  match obj with
  | WeatherDataObj _ t p h q => Some (WeatherDataObj obs t p h q)
  | ButtonObj st _ => Some (ButtonObj st obs)
  | _ => None
  end.

Definition with_temperature (v : pyval) (obj : object) : option object :=
  match obj with
  | WeatherDataObj obs _ p h q => Some (WeatherDataObj obs v p h q)
  | TemperatureDisplayObj _ s => Some (TemperatureDisplayObj v s)
  | _ => None
  end.

Definition with_pressure (v : pyval) (obj : object) : option object :=
  match obj with
  | WeatherDataObj obs t _ h q => Some (WeatherDataObj obs t v h q)
  | PressureDisplayObj _ s => Some (PressureDisplayObj v s)
  | _ => None
  end.

Definition with_humidity (v : pyval) (obj : object) : option object :=
  match obj with
  | WeatherDataObj obs t p _ q => Some (WeatherDataObj obs t p v q)
  | HumidityDisplayObj _ s => Some (HumidityDisplayObj v s)
  | _ => None
  end.

Definition with_pollen (v : pyval) (obj : object) : option object :=
  match obj with
  | WeatherDataObj obs t p h _ => Some (WeatherDataObj obs t p h v)
  | PollenDisplayObj _ s => Some (PollenDisplayObj v s)
  | _ => None
  end.

Definition with_state (st : ButtonState) (obj : object) : option object :=
  match obj with
  | ButtonObj _ obs => Some (ButtonObj st obs)
  | _ => None
  end.

(** ** The world, and computations over it *)

(** [heap] is the object store and [stdout] the text written by [print].
    [calls] is a ghost trace: the receivers of the [update()] invocations made
    so far, oldest first.  No method reads it. *)
Record world := World {
  heap : gmap nat object;
  stdout : string;
  calls : list ref
}.

Inductive exn := ValueError | AttributeError.

(** [Stuck] marks an execution that left the model (a reference outside the
    store, a write to an attribute the instance does not have, a loop out of
    fuel); it is not a Python exception. *)
Inductive outcome (A : Type) :=
| Ok (a : A)
| Raise (e : exn)
| Stuck.
Arguments Ok {A} a.
Arguments Raise {A} e.
Arguments Stuck {A}.

Definition M (A : Type) : Type := world -> outcome A * world.

Definition ret {A} (a : A) : M A := fun w => (Ok a, w).

Definition bind {A B} (m : M A) (k : A -> M B) : M B :=
  fun w =>
    match m w with
    | (Ok a, w') => k a w'
    | (Raise e, w') => (Raise e, w')
    | (Stuck, w') => (Stuck, w')
    end.

Definition raise {A} (e : exn) : M A := fun w => (Raise e, w).
Definition stuck {A} : M A := fun w => (Stuck, w).

Declare Scope py_scope.
Delimit Scope py_scope with py.
Notation "x <- m ;; k" := (bind m (fun x => k))
  (at level 100, m at next level, right associativity) : py_scope.
Notation "m ;; k" := (bind m (fun _ => k))
  (at level 100, right associativity) : py_scope.
Open Scope py_scope.

Definition deref (r : ref) : M object :=
  fun w => match heap w !! r with
           | Some obj => (Ok obj, w)
           | None => (Stuck, w)
           end.

Definition store (r : ref) (obj : object) : M unit :=
  fun w => (Ok tt, World (<[r := obj]> (heap w)) (stdout w) (calls w)).

(** Object creation: a reference not yet in the store. *)
Definition alloc (obj : object) : M ref :=
  fun w => let r := fresh (dom (heap w)) in
           (Ok r, World (<[r := obj]> (heap w)) (stdout w) (calls w)).

Definition getattr {A} (attr : object -> option A) (r : ref) : M A :=
  obj <- deref r ;;
  match attr obj with
  | Some a => ret a
  | None => raise AttributeError
  end.

Definition setattr (upd : object -> option object) (r : ref) : M unit :=
  obj <- deref r ;;
  match upd obj with
  | Some obj' => store r obj'
  | None => stuck
  end.

Definition newline : string := String (Ascii.ascii_of_nat 10) EmptyString.

(** [print(s)]: the text and a line end. *)
Definition print (s : string) : M unit :=
  fun w => (Ok tt, World (heap w) (stdout w +:+ s +:+ newline) (calls w)).

Definition trace_update (r : ref) : M unit :=
  fun w => (Ok tt, World (heap w) (stdout w) (calls w ++ [r])).

(** [list.remove(x)]: drop the first item equal to [x]; [None] stands for the
    [ValueError] of a list without such an item.  The classes define no
    [__eq__], so items compare by identity. *)
Fixpoint list_remove (x : ref) (l : list ref) : option (list ref) :=
  match l with
  | [] => None
  | y :: l' =>
      if decide (x = y) then Some l'
      else match list_remove x l' with
           | Some r => Some (y :: r)
           | None => None
           end
  end.

(** ** The program *)

(** [repr] of a Python float, the built-in behind an f-string field holding a
    float.  It belongs to the interpreter, not to this module, so the program
    is read over any implementation of it. *)
Class Interpreter := { float_repr : float -> string }.

Section Program.

Context `{Interpreter}.

(** [format(v, "")] for the numbers above: an int prints in decimal. *)
Definition format_value (v : pyval) : string :=
  match v with
  | PyFloat f => float_repr f
  | PyInt z => NilZero.string_of_int (Z.to_int z)
  end.

(** Method lookup [r.name]: [body] when the class of [r] defines the method,
    [AttributeError] otherwise. *)
Definition invoke {A} (defines : class -> bool) (body : ref -> M A) (r : ref) : M A :=
  obj <- deref r ;;
  if defines (class_of obj) then body r else raise AttributeError.

Definition is_WeatherData (c : class) : bool :=
  match c with WeatherData => true | _ => false end.

Definition is_Button (c : class) : bool :=
  match c with Button => true | _ => false end.

(** *** class WeatherData: constructor and getters *)

Definition WeatherData_init : M ref :=
  alloc (WeatherDataObj [] (PyFloat 0) (PyFloat 0) (PyFloat 0) (PyFloat 0)).

Definition WeatherData_get_pollen (self : ref) : M pyval :=
  getattr attr_pollen self.

Definition WeatherData_get_temperature (self : ref) : M pyval :=
  getattr attr_temperature self.

Definition WeatherData_get_pressure (self : ref) : M pyval :=
  getattr attr_pressure self.

Definition WeatherData_get_humidity (self : ref) : M pyval :=
  getattr attr_humidity self.

(** *** class Button: constructor and getter *)

Definition Button_init : M ref :=
  alloc (ButtonObj ON []).

Definition Button_get_state (self : ref) : M ButtonState :=
  getattr attr_state self.

(** *** The display observers *)

Definition TemperatureDisplay_init (subject : ref) : M ref :=
  alloc (TemperatureDisplayObj (PyFloat 0) subject).

Definition TemperatureDisplay_display (self : ref) : M unit :=
  t <- getattr attr_temperature self ;;
  print ("The current temperature is: " +:+ format_value t).

Definition TemperatureDisplay_update (self : ref) : M unit :=
  subject <- getattr attr_subject self ;;
  t <- invoke is_WeatherData WeatherData_get_temperature subject ;;
  setattr (with_temperature t) self ;;
  TemperatureDisplay_display self.

Definition HumidityDisplay_init (subject : ref) : M ref :=
  alloc (HumidityDisplayObj (PyFloat 0) subject).

Definition HumidityDisplay_display (self : ref) : M unit :=
  h <- getattr attr_humidity self ;;
  print ("The current humidity is: " +:+ format_value h).

Definition HumidityDisplay_update (self : ref) : M unit :=
  subject <- getattr attr_subject self ;;
  h <- invoke is_WeatherData WeatherData_get_humidity subject ;;
  setattr (with_humidity h) self ;;
  HumidityDisplay_display self.

Definition PressureDisplay_init (subject : ref) : M ref :=
  alloc (PressureDisplayObj (PyFloat 0) subject).

Definition PressureDisplay_display (self : ref) : M unit :=
  p <- getattr attr_pressure self ;;
  print ("The current pressure is: " +:+ format_value p).

Definition PressureDisplay_update (self : ref) : M unit :=
  subject <- getattr attr_subject self ;;
  p <- invoke is_WeatherData WeatherData_get_pressure subject ;;
  setattr (with_pressure p) self ;;
  PressureDisplay_display self.

Definition PollenDisplay_init (subject : ref) : M ref :=
  alloc (PollenDisplayObj (PyFloat 0) subject).

Definition PollenDisplay_display (self : ref) : M unit :=
  q <- getattr attr_pollen self ;;
  print ("The current pollen is: " +:+ format_value q).

Definition PollenDisplay_update (self : ref) : M unit :=
  subject <- getattr attr_subject self ;;
  q <- invoke is_WeatherData WeatherData_get_pollen subject ;;
  setattr (with_pollen q) self ;;
  PollenDisplay_display self.

(** *** The button listeners *)

Definition OnEventListener_init (subject : ref) : M ref :=
  alloc (OnEventListenerObj subject).

Definition OnEventListener_update (self : ref) : M unit :=
  subject <- getattr attr_subject self ;;
  st <- invoke is_Button Button_get_state subject ;;
  if ButtonState_eqb st ON
  then print "THE BUTTON IS ON SO I AM DOING SOMETHING"
  else ret tt.

Definition OffEventListener_init (subject : ref) : M ref :=
  alloc (OffEventListenerObj subject).

Definition OffEventListener_update (self : ref) : M unit :=
  subject <- getattr attr_subject self ;;
  st <- invoke is_Button Button_get_state subject ;;
  if ButtonState_eqb st OFF
  then print "THE BUTTON IS OFF SO I AM DOING SOMETHING"
  else ret tt.

(** *** [observer.update()] *)

(** The [update] method of a class, when it defines one. *)
Definition update_method (c : class) : option (ref -> M unit) :=
  match c with
  | TemperatureDisplay => Some TemperatureDisplay_update
  | HumidityDisplay => Some HumidityDisplay_update
  | PressureDisplay => Some PressureDisplay_update
  | PollenDisplay => Some PollenDisplay_update
  | OnEventListener => Some OnEventListener_update
  | OffEventListener => Some OffEventListener_update
  | WeatherData | Button => None
  end.

(** The call [observer.update()]: the method is looked up in the class of the
    receiver; once found, the invocation is traced and the body runs. *)
Definition call_update (observer : ref) : M unit :=
  obj <- deref observer ;;
  match update_method (class_of obj) with
  | Some body => trace_update observer ;; body observer
  | None => raise AttributeError
  end.

(** *** The registry and the broadcast, shared text of both subjects *)

(** [for observer in self.observers: observer.update()].  The list iterator
    keeps an index into the live list: each round reads the list again and
    stops when the index has reached its end. *)
Fixpoint notify_loop (fuel : nat) (self : ref) (i : nat) : M unit :=
  obs <- getattr attr_observers self ;;
  match obs !! i with
  | None => ret tt
  | Some observer =>
      match fuel with
      | O => stuck
      | S fuel' => call_update observer ;; notify_loop fuel' self (S i)
      end
  end.

Definition WeatherData_registerObserver (self observer : ref) : M unit :=
  obs <- getattr attr_observers self ;;
  setattr (with_observers (obs ++ [observer])) self.

Definition WeatherData_removeObserver (self observer : ref) : M unit :=
  obs <- getattr attr_observers self ;;
  match list_remove observer obs with
  | Some obs' => setattr (with_observers obs') self
  | None => raise ValueError
  end.

(** The fuel is the length of the registry at loop entry; no [update] of this
    module changes a registry, so it is never exhausted
    ([notify_loop_run_updates] below). *)
Definition WeatherData_notifyObservers (self : ref) : M unit :=
  obs <- getattr attr_observers self ;;
  notify_loop (length obs) self 0.

Definition WeatherData_set_measurements (self : ref)
    (temperature pressure humidity pollen : pyval) : M unit :=
  setattr (with_temperature temperature) self ;;
  setattr (with_pressure pressure) self ;;
  setattr (with_humidity humidity) self ;;
  setattr (with_pollen (PyInt 15)) self ;;
  WeatherData_notifyObservers self.

Definition Button_registerObserver (self observer : ref) : M unit :=
  obs <- getattr attr_observers self ;;
  setattr (with_observers (obs ++ [observer])) self.

Definition Button_removeObserver (self observer : ref) : M unit :=
  obs <- getattr attr_observers self ;;
  match list_remove observer obs with
  | Some obs' => setattr (with_observers obs') self
  | None => raise ValueError
  end.

Definition Button_notifyObservers (self : ref) : M unit :=
  obs <- getattr attr_observers self ;;
  notify_loop (length obs) self 0.

Definition Button_set_state (self : ref) (state : ButtonState) : M unit :=
  setattr (with_state state) self ;;
  Button_notifyObservers self.

(** *** Method calls on a subject *)

(** [subject.registerObserver(observer)] and its siblings, as the demo block
    writes them: the method is looked up in the class of the receiver. *)
Definition call_registerObserver (subject observer : ref) : M unit :=
  obj <- deref subject ;;
  match class_of obj with
  | WeatherData => WeatherData_registerObserver subject observer
  | Button => Button_registerObserver subject observer
  | _ => raise AttributeError
  end.

Definition call_removeObserver (subject observer : ref) : M unit :=
  obj <- deref subject ;;
  match class_of obj with
  | WeatherData => WeatherData_removeObserver subject observer
  | Button => Button_removeObserver subject observer
  | _ => raise AttributeError
  end.

Definition call_notifyObservers (subject : ref) : M unit :=
  obj <- deref subject ;;
  match class_of obj with
  | WeatherData => WeatherData_notifyObservers subject
  | Button => Button_notifyObservers subject
  | _ => raise AttributeError
  end.

End Program.

(** ** Reading the world *)

(** The registry of a subject, [None] when [s] is not one. *)
Definition registry (s : ref) (w : world) : option (list ref) :=
  heap w !! s ≫= attr_observers.

(** The part of an object that no [update] touches: its class, the registry
    it holds and the subject it points to. *)
Definition shape (obj : object) : class * option (list ref) * option ref :=
  (class_of obj, attr_observers obj, attr_subject obj).

Definition shape_at (w : world) (r : ref) : option (class * option (list ref) * option ref) :=
  shape <$> heap w !! r.

(** An observer as the annotations of the source type it: an instance of one
    of the six observer classes, built on a subject of the annotated class
    ([WeatherData] for the displays, [Button] for the listeners). *)
Definition subject_class (c : class) : option class :=
  match c with
  | TemperatureDisplay | HumidityDisplay | PressureDisplay | PollenDisplay => Some WeatherData
  | OnEventListener | OffEventListener => Some Button
  | WeatherData | Button => None
  end.

Definition class_eqb (a b : class) : bool :=
  match a, b with
  | WeatherData, WeatherData | TemperatureDisplay, TemperatureDisplay
  | HumidityDisplay, HumidityDisplay | PressureDisplay, PressureDisplay
  | PollenDisplay, PollenDisplay | Button, Button
  | OnEventListener, OnEventListener | OffEventListener, OffEventListener => true
  | _, _ => false
  end.

Definition well_typed_observer (w : world) (o : ref) : bool :=
  match heap w !! o with
  | Some obj =>
      match subject_class (class_of obj), attr_subject obj with
      | Some c, Some s =>
          match heap w !! s with
          | Some sobj => class_eqb (class_of sobj) c
          | None => false
          end
      | _, _ => false
      end
  | None => false
  end.

(** The broadcast over a fixed list: [update()] on each item in turn, stopping
    at the first that does not return. *)
Fixpoint run_updates `{Interpreter} (l : list ref) : M unit :=
  match l with
  | [] => ret tt
  | o :: l' => call_update o ;; run_updates l'
  end.

(** A sequence of registry calls on one subject. *)
Inductive registry_call :=
| Register (observer : ref)
| Remove (observer : ref).

Definition do_registry_call (subject : ref) (c : registry_call) : M unit :=
  match c with
  | Register o => call_registerObserver subject o
  | Remove o => call_removeObserver subject o
  end.

(** The world after the calls were made one after the other on [subject],
    each of them returning or raising (a raising call leaves the world it
    raised in, and the caller goes on). *)
Fixpoint after_calls (subject : ref) (cs : list registry_call) (w : world) : world :=
  match cs with
  | [] => w
  | c :: cs' => after_calls subject cs' (do_registry_call subject c w).2
  end.

(** The class of an object and the subject it points to: what the typing of
    an observer looks at. *)
Definition kind (obj : object) : class * option ref :=
  (class_of obj, attr_subject obj).

Definition kind_at (w : world) (r : ref) : option (class * option ref) :=
  kind <$> heap w !! r.

(** The measurement and state attributes of an object. *)
Definition state_fields (obj : object) :
    option pyval * option pyval * option pyval * option pyval * option ButtonState :=
  (attr_temperature obj, attr_pressure obj, attr_humidity obj, attr_pollen obj,
   attr_state obj).

Definition fields_at (w : world) (r : ref) :=
  state_fields <$> heap w !! r.

(** What a sequence of registry calls leaves registered, on lists alone:
    a registration goes to the end, a removal takes the first equal entry out
    (and is void on a list without one). *)
Fixpoint registered_after (cs : list registry_call) (obs : list ref) : list ref :=
  match cs with
  | [] => obs
  | Register o :: cs' => registered_after cs' (obs ++ [o])
  | Remove o :: cs' => registered_after cs' (default obs (list_remove o obs))
  end.

(** Number of entries of [l] equal to [o]. *)
Definition occurrences (o : ref) (l : list ref) : nat :=
  length (filter (λ x, x = o) l).

(** [contains needle s]: [needle] occurs in [s] as a contiguous piece. *)
Fixpoint contains (needle s : string) : bool :=
  String.prefix needle s ||
  match s with
  | EmptyString => false
  | String _ s' => contains needle s'
  end.

(** [w'] differs from [w] in no measurement or state attribute of any object,
    in no [update()] invocation and in no output. *)
Definition state_untouched (w w' : world) : Prop :=
  (∀ r, fields_at w' r = fields_at w r) ∧ calls w' = calls w ∧ stdout w' = stdout w.

(** A computation that, whatever its outcome, keeps the shape of every
    object: classes, registries and subject references. *)
Definition preserves_shape {A} (m : M A) : Prop :=
  ∀ w out w', m w = (out, w') → ∀ r, shape_at w' r = shape_at w r.

(** What one [observer.update()] can do to the world.  Either the store is
    left as it was, or the receiver, an instance of an observer class, is
    rewritten into an object of the same shape.  The trace grows by the
    receiver exactly when its class defines [update]; text is only added to
    the output; and a call that does not return leaves store and output as
    they were. *)
Record update_effect `{Interpreter} (o : ref) (w : world) (out : outcome unit)
    (w' : world) : Prop := {
  ue_heap :
    heap w' = heap w ∨
    ∃ obj obj', heap w !! o = Some obj ∧ shape obj' = shape obj ∧
                is_Some (update_method (class_of obj)) ∧
                heap w' = <[o := obj']> (heap w);
  ue_calls :
    match heap w !! o with
    | Some obj =>
        if update_method (class_of obj) is Some _ then calls w' = calls w ++ [o]
        else calls w' = calls w
    | None => calls w' = calls w
    end;
  ue_return : out = Ok tt → calls w' = calls w ++ [o];
  ue_stdout : ∃ text, stdout w' = stdout w +:+ text;
  ue_abort : out ≠ Ok tt → heap w' = heap w ∧ stdout w' = stdout w
}.

(** ** A concrete interpreter for the examples *)

(** [repr] on the floats whose value is an integer below [10^16] in
    magnitude, on the zeros, the infinities and nan, where Python prints the
    integer followed by [.0] (resp. [inf], [nan]).  Other floats print as
    [?]: the examples below never reach them. *)
Definition integral_float_repr (f : float) : string :=
  match Prim2SF f with
  | S754_zero s => (if s then "-0.0" else "0.0")
  | S754_infinity s => (if s then "-inf" else "inf")
  | S754_nan => "nan"
  | S754_finite s m e =>
      let n := if (0 <=? e)%Z then Some (Z.pos m * 2 ^ e)%Z
               else if (Z.pos m mod 2 ^ (- e) =? 0)%Z then Some (Z.pos m / 2 ^ (- e))%Z
               else None in
      match n with
      | Some n =>
          if (n <? 10 ^ 16)%Z
          then (if s then "-" else "") +:+ NilZero.string_of_int (Z.to_int n) +:+ ".0"
          else "?"
      | None => "?"
      end
  end.

Definition integral_interpreter : Interpreter :=
  {| float_repr := integral_float_repr |}.

Definition empty_world : world := World ∅ "" [].

(** A [WeatherData] at 0 with three temperature displays A = 1, B = 2, C = 3
    built on it and registered in that order. *)
Definition abc_world : world :=
  World (<[3 := TemperatureDisplayObj (PyFloat 0) 0]>
         (<[2 := TemperatureDisplayObj (PyFloat 0) 0]>
          (<[1 := TemperatureDisplayObj (PyFloat 0) 0]>
           (<[0 := WeatherDataObj [1; 2; 3] (PyFloat 0) (PyFloat 0) (PyFloat 0) (PyFloat 0)]> ∅))))
        "" [].

(** A registry whose second entry was built on a [Button]
    ([TemperatureDisplay(button)]): its [update()] finds no
    [get_temperature]. *)
Definition mistyped_world : world :=
  World (<[4 := ButtonObj ON []]>
         (<[3 := HumidityDisplayObj (PyFloat 0) 0]>
          (<[2 := TemperatureDisplayObj (PyFloat 0) 4]>
           (<[1 := TemperatureDisplayObj (PyFloat 0) 0]>
            (<[0 := WeatherDataObj [1; 2; 3] (PyFloat 60) (PyInt 105) (PyInt 100) (PyInt 15)]> ∅)))))
        "" [].

(** A [WeatherData] at 0 nobody has registered with yet, and a temperature
    display at 1 built on it. *)
Definition unregistered_world : world :=
  World (<[1 := TemperatureDisplayObj (PyFloat 0) 0]>
         (<[0 := WeatherDataObj [] (PyFloat 0) (PyFloat 0) (PyFloat 0) (PyFloat 0)]> ∅))
        "" [].

(** The scenario of the specification: a [WeatherData] with three
    temperature displays A, B, C registered in that order, and a first
    measurement of 5. *)
Definition abc_scenario `{Interpreter} : M (ref * ref * ref * ref) :=
  s <- WeatherData_init ;;
  a <- TemperatureDisplay_init s ;;
  b <- TemperatureDisplay_init s ;;
  c <- TemperatureDisplay_init s ;;
  call_registerObserver s a ;;
  call_registerObserver s b ;;
  call_registerObserver s c ;;
  WeatherData_set_measurements s (PyInt 5) (PyInt 5) (PyInt 5) (PyInt 5) ;;
  ret (s, a, b, c).

(** Its second half: B is removed, and a measurement of 10 follows. *)
Definition abc_scenario_without_b `{Interpreter} : M (ref * ref * ref * ref) :=
  bind abc_scenario (fun '(s, a, b, c) =>
    call_removeObserver s b ;;
    WeatherData_set_measurements s (PyInt 10) (PyInt 10) (PyInt 10) (PyInt 10) ;;
    ret (s, a, b, c)).

(** The first lines of the [__main__] block, up to its first
    [set_measurements(50.0, 120, 120, 123)]. *)
Definition main_first_measurement `{Interpreter} : M ref :=
  weatherData <- WeatherData_init ;;
  pressureDisplay <- PressureDisplay_init weatherData ;;
  temperatureDisplay <- TemperatureDisplay_init weatherData ;;
  humidifyDisplay <- HumidityDisplay_init weatherData ;;
  call_registerObserver weatherData pressureDisplay ;;
  WeatherData_set_measurements weatherData (PyFloat 50) (PyInt 120) (PyInt 120) (PyInt 123) ;;
  ret weatherData.

(** What a display's [update()] leaves: it returns [None], the display holds
    the value it pulled, and one line went to the output. *)
Definition display_result (w : world) (self : ref) (updated : object) (line : string) :
    outcome unit * world :=
  (Ok tt, World (<[self := updated]> (heap w)) (stdout w +:+ line +:+ newline) (calls w)).

(** ** Displays against their subjects, listeners against their buttons *)

(** The measurement a display holds. *)
Definition shown (obj : object) : option pyval :=
  match obj with
  | TemperatureDisplayObj v _ | HumidityDisplayObj v _
  | PressureDisplayObj v _ | PollenDisplayObj v _ => Some v
  | _ => None
  end.

(** The measurement a display would pull now: the attribute of its kind in
    the [WeatherData] it was built on. *)
Definition source_value (w : world) (obj : object) : option pyval :=
  match obj with
  | TemperatureDisplayObj _ s =>
      match heap w !! s with Some (WeatherDataObj _ t _ _ _) => Some t | _ => None end
  | HumidityDisplayObj _ s =>
      match heap w !! s with Some (WeatherDataObj _ _ _ h _) => Some h | _ => None end
  | PressureDisplayObj _ s =>
      match heap w !! s with Some (WeatherDataObj _ _ p _ _) => Some p | _ => None end
  | PollenDisplayObj _ s =>
      match heap w !! s with Some (WeatherDataObj _ _ _ _ q) => Some q | _ => None end
  | _ => None
  end.

(** [o] holds what it would pull: a display showing the current measurement
    of its subject, or an object without a measurement to show. *)
Definition in_sync (w : world) (o : ref) : Prop :=
  ∃ obj, heap w !! o = Some obj ∧ shown obj = source_value w obj.

(** The text a listener's [update()] prints in [w]: its line when the button
    it was built on is in its state, nothing otherwise. *)
Definition listener_text (w : world) (o : ref) : string :=
  match heap w !! o with
  | Some (OnEventListenerObj b) =>
      match heap w !! b with
      | Some (ButtonObj ON _) => "THE BUTTON IS ON SO I AM DOING SOMETHING" +:+ newline
      | _ => ""
      end
  | Some (OffEventListenerObj b) =>
      match heap w !! b with
      | Some (ButtonObj OFF _) => "THE BUTTON IS OFF SO I AM DOING SOMETHING" +:+ newline
      | _ => ""
      end
  | _ => ""
  end.

Fixpoint listeners_text (w : world) (l : list ref) : string :=
  match l with
  | [] => ""
  | o :: l' => listener_text w o +:+ listeners_text w l'
  end.

(** [o] is a listener built on a [Button]. *)
Definition is_listener (w : world) (o : ref) : bool :=
  match heap w !! o with
  | Some (OnEventListenerObj b) | Some (OffEventListenerObj b) =>
      match heap w !! b with Some (ButtonObj _ _) => true | _ => false end
  | _ => false
  end.

(** The same call made [n] times in a row, stopping at the first that does
    not return. *)
Fixpoint repeat_call (n : nat) (m : M unit) : M unit :=
  match n with
  | O => ret tt
  | S n' => m ;; repeat_call n' m
  end.

(** A [Button] at 0 with an [OnEventListener] at 1 and an [OffEventListener]
    at 2, both built on it and registered in that order. *)
Definition button_world : world :=
  World (<[2 := OffEventListenerObj 0]>
         (<[1 := OnEventListenerObj 0]>
          (<[0 := ButtonObj ON [1; 2]]> ∅)))
        "" [].

(** A [WeatherData] at 0 that was registered with itself between two of its
    temperature displays. *)
Definition self_registered_world : world :=
  World (<[2 := TemperatureDisplayObj (PyFloat 0) 0]>
         (<[1 := TemperatureDisplayObj (PyFloat 0) 0]>
          (<[0 := WeatherDataObj [1; 0; 2] (PyInt 7) (PyInt 7) (PyInt 7) (PyInt 7)]> ∅)))
        "" [].

(** Two [WeatherData], at 0 and at 3; the display at 1 is built on the second
    and registered with the first. *)
Definition two_subjects_world : world :=
  World (<[3 := WeatherDataObj [] (PyInt 30) (PyInt 31) (PyInt 32) (PyInt 33)]>
         (<[2 := TemperatureDisplayObj (PyFloat 0) 0]>
          (<[1 := TemperatureDisplayObj (PyFloat 0) 3]>
           (<[0 := WeatherDataObj [1; 2] (PyFloat 0) (PyFloat 0) (PyFloat 0) (PyFloat 0)]> ∅))))
        "" [].

(** [init] returns a new object [obj] and does nothing else: every other
    object, every registry, the trace and the output are as before. *)
Definition constructs (init : M ref) (obj : object) (w : world) : Prop :=
  ∃ r w', init w = (Ok r, w') ∧ heap w !! r = None ∧ heap w' !! r = Some obj ∧
          (∀ x, x ≠ r → heap w' !! x = heap w !! x) ∧
          (∀ x, registry x w' = registry x w) ∧
          calls w' = calls w ∧ stdout w' = stdout w.

(** The getter a class of observers calls on its subject is missing from the
    class of [sobj]. *)
Definition lacks_getter (c : class) (sobj : object) : bool :=
  match subject_class c with
  | Some sc => negb (class_eqb (class_of sobj) sc)
  | None => false
  end.

(** ** The beverages and pizzas of [decorator.py] *)

(** A beverage: one of the three base drinks, or a condiment holding the
    beverage it wraps (the [beverage] attribute, set once by [__init__]). *)
Inductive Beverage :=
| HouseHold
| Decaf
| DarkRoast
| Milk (beverage : Beverage)
| Honey (beverage : Beverage)
| Sugar (beverage : Beverage).

Fixpoint Beverage_get_description (self : Beverage) : string :=
  match self with
  | HouseHold => "House Hold"
  | Decaf => "Decaf"
  | DarkRoast => "Dark Roast"
  | Milk beverage => "Milk," +:+ Beverage_get_description beverage
  | Honey beverage => "Honey," +:+ Beverage_get_description beverage
  | Sugar beverage => "Sugar," +:+ Beverage_get_description beverage
  end.

(** A pizza: the plain one, or a topping holding the pizza it wraps. *)
Inductive IPizza :=
| Pizza
| Cheese (pizza : IPizza)
| Pepporoni (pizza : IPizza).

Fixpoint IPizza_get_description (self : IPizza) : string :=
  match self with
  | Pizza => "Pizza"
  | Cheese pizza => "Chesse, " +:+ IPizza_get_description pizza
  | Pepporoni pizza => "Pepporoni, " +:+ IPizza_get_description pizza
  end.

(** ** Proof automation *)

(** Runs the world-passing text of a method on the facts at hand. *)
Ltac py_unfold :=
  unfold call_update, TemperatureDisplay_update, HumidityDisplay_update,
    PressureDisplay_update, PollenDisplay_update, OnEventListener_update,
    OffEventListener_update, TemperatureDisplay_display, HumidityDisplay_display,
    PressureDisplay_display, PollenDisplay_display, invoke,
    WeatherData_get_temperature, WeatherData_get_humidity,
    WeatherData_get_pressure, WeatherData_get_pollen, Button_get_state,
    getattr, setattr, bind, deref, store, ret, raise, stuck, print,
    trace_update in *.

Ltac py_run :=
  repeat first
    [ progress py_unfold
    | rewrite lookup_insert_eq in *
    | match goal with
      | Hl : ?h !! ?r = _ |- context [?h !! ?r] => rewrite Hl
      end
    | progress cbn [heap stdout calls class_of update_method attr_observers
        attr_temperature attr_pressure attr_humidity attr_pollen attr_subject
        attr_state with_observers with_temperature with_pressure with_humidity
        with_pollen with_state is_WeatherData is_Button fst snd] in * ].

(** Brings the first characters of both sides of an equation between
    descriptions to the front and compares them. *)
Ltac description_eq H :=
  cbv [String.append] in H; fold String.append in H; simplify_eq.

(** ** Lists: [list.remove] *)

Lemma list_remove_first (x : ref) (l1 l2 : list ref) :
  x ∉ l1 → list_remove x (l1 ++ x :: l2) = Some (l1 ++ l2).
Proof.
  induction l1 as [|y l1 IH]; simpl; intros Hni.
  - by rewrite decide_True.
  - apply not_elem_of_cons in Hni as [Hne Hni].
    rewrite decide_False by done. by rewrite IH.
Qed.

Lemma list_remove_absent (x : ref) (l : list ref) :
  x ∉ l → list_remove x l = None.
Proof.
  induction l as [|y l IH]; simpl; intros Hni; [done|].
  apply not_elem_of_cons in Hni as [Hne Hni].
  rewrite decide_False by done. by rewrite IH.
Qed.

Lemma list_remove_Some (x : ref) (l l' : list ref) :
  list_remove x l = Some l' ↔
  ∃ l1 l2, l = l1 ++ x :: l2 ∧ (x ∉ l1) ∧ l' = l1 ++ l2.
Proof.
  split.
  - intros Hrm. destruct (decide (x ∈ l)) as [Hin|Hni].
    + apply list_elem_of_split_l in Hin as (l1 & l2 & -> & Hni).
      rewrite list_remove_first in Hrm by done. injection Hrm as <-.
      by exists l1, l2.
    + rewrite list_remove_absent in Hrm by done. discriminate.
  - intros (l1 & l2 & -> & Hni & ->). by apply list_remove_first.
Qed.

Lemma list_remove_None (x : ref) (l : list ref) :
  list_remove x l = None ↔ x ∉ l.
Proof.
  split; [|apply list_remove_absent].
  intros Hrm Hin. apply list_elem_of_split_l in Hin as (l1 & l2 & -> & Hni).
  rewrite list_remove_first in Hrm by done. discriminate.
Qed.

Lemma occurrences_app (o : ref) (l1 l2 : list ref) :
  occurrences o (l1 ++ l2) = occurrences o l1 + occurrences o l2.
Proof. unfold occurrences. by rewrite filter_app, length_app. Qed.

Lemma occurrences_cons (o x : ref) (l : list ref) :
  occurrences o (x :: l) = (if decide (x = o) then 1 else 0) + occurrences o l.
Proof.
  unfold occurrences. rewrite filter_cons. by destruct (decide (x = o)).
Qed.

Lemma occurrences_zero (o : ref) (l : list ref) :
  occurrences o l = 0 ↔ o ∉ l.
Proof.
  induction l as [|x l IH].
  - split; [intros _; apply not_elem_of_nil|done].
  - rewrite occurrences_cons, not_elem_of_cons.
    destruct (decide (x = o)) as [->|Hne]; simpl.
    + split; [done|]. by intros [? _].
    + rewrite IH. split; [|by intros [_ ?]]. intros ?. split; [congruence|done].
Qed.

(** ** Strings *)

Lemma string_app_nil_r (s : string) : s +:+ "" = s.
Proof.
  induction s as [|c s IH]; [done|].
  change (String c (s +:+ "") = String c s). by rewrite IH.
Qed.

Lemma string_app_assoc (a b c : string) : (a +:+ b) +:+ c = a +:+ b +:+ c.
Proof.
  induction a as [|x a IH]; [done|].
  change (String x ((a +:+ b) +:+ c) = String x (a +:+ b +:+ c)). by rewrite IH.
Qed.

Lemma prefix_app (a b : string) : String.prefix a (a +:+ b) = true.
Proof.
  induction a as [|c a IH]; simpl.
  - by destruct b.
  - destruct (Ascii.ascii_dec c c); [done|congruence].
Qed.

Lemma contains_prefix (needle s : string) :
  String.prefix needle s = true → contains needle s = true.
Proof. intros Hp. destruct s; cbn [contains]; rewrite Hp; done. Qed.

Lemma contains_middle (pre needle post : string) :
  contains needle (pre +:+ needle +:+ post) = true.
Proof.
  induction pre as [|c pre IH].
  - change (contains needle (needle +:+ post) = true).
    apply contains_prefix, prefix_app.
  - change (contains needle (String c (pre +:+ needle +:+ post)) = true).
    cbn [contains]. rewrite IH. apply orb_true_r.
Qed.

(** ** Single steps *)

Section Properties.

Context `{Interpreter}.

Lemma call_update_effect (o : ref) (w : world) :
  update_effect o w (call_update o w).1 (call_update o w).2.
Proof.
  destruct (heap w !! o) as [obj|] eqn:Hobj.
  2:{ py_run. split; cbn [heap stdout calls fst snd]; rewrite ?Hobj; auto; try done.
      exists "". by rewrite string_app_nil_r. }
  destruct obj as [obs t p h q|t s|h s|p s|q s|st obs|s|s];
    try (destruct (heap w !! s) as [[obs' t' p' h' q'|t' s'|h' s'|p' s'|q' s'|st' obs'|s'|s']|] eqn:Hs).
  all: py_run.
  all: try (destruct (ButtonState_eqb _ _)).
  all: split; cbn [heap stdout calls fst snd]; rewrite ?Hobj; cbn [class_of update_method].
  all: try done.
  all: try solve
    [ by left
    | right; eexists _, _; split; [reflexivity|];
      split; [|split; [by eexists|reflexivity]]; reflexivity
    | exists ""; by rewrite string_app_nil_r
    | eexists; reflexivity ].
Qed.

Lemma call_update_inv (o : ref) (w w' : world) (out : outcome unit) :
  call_update o w = (out, w') → update_effect o w out w'.
Proof. intros E. pose proof (call_update_effect o w) as Hu. by rewrite E in Hu. Qed.

Lemma update_effect_shape (o : ref) (w w' : world) (out : outcome unit) :
  update_effect o w out w' → ∀ r, shape_at w' r = shape_at w r.
Proof.
  intros [[Hh|(obj & obj' & Ho & Hsh & _ & Hh)] _ _ _ _] r; unfold shape_at; rewrite Hh.
  - done.
  - destruct (decide (r = o)) as [->|Hne].
    + by rewrite lookup_insert_eq, Ho; cbn; rewrite Hsh.
    + by rewrite lookup_insert_ne.
Qed.

Lemma update_effect_subject (o s : ref) (w w' : world) (out : outcome unit) (sobj : object) :
  update_effect o w out w' →
  heap w !! s = Some sobj → update_method (class_of sobj) = None →
  heap w' !! s = Some sobj.
Proof.
  intros [[Hh|(obj & obj' & Ho & _ & Hm & Hh)] _ _ _ _] Hs Hnone; rewrite Hh; [done|].
  destruct (decide (s = o)) as [->|Hne].
  - rewrite Hs in Ho. injection Ho as <-. rewrite Hnone in Hm. by destruct Hm.
  - by rewrite lookup_insert_ne.
Qed.

Lemma registry_shape (w w' : world) :
  (∀ r, shape_at w' r = shape_at w r) → ∀ s, registry s w' = registry s w.
Proof.
  intros Hsh s. specialize (Hsh s). unfold registry, shape_at in *.
  destruct (heap w' !! s) as [a|], (heap w !! s) as [b|];
    cbn in *; unfold shape in *; congruence.
Qed.

Lemma well_typed_kind (w w' : world) :
  (∀ r, kind_at w' r = kind_at w r) →
  ∀ o, well_typed_observer w' o = well_typed_observer w o.
Proof.
  intros Hk o. unfold well_typed_observer.
  pose proof (Hk o) as Ho. unfold kind_at in Ho.
  destruct (heap w' !! o) as [a|], (heap w !! o) as [b|]; cbn in Ho; try done.
  injection Ho as Hc Hsub. rewrite Hc, Hsub.
  destruct (subject_class (class_of b)) as [c|]; [|done].
  destruct (attr_subject b) as [s|]; [|done].
  pose proof (Hk s) as Hs. unfold kind_at in Hs.
  destruct (heap w' !! s) as [a'|], (heap w !! s) as [b'|]; cbn in Hs; try done.
  injection Hs as Hc' _. by rewrite Hc'.
Qed.

Lemma shape_kind (w w' : world) :
  (∀ r, shape_at w' r = shape_at w r) → ∀ r, kind_at w' r = kind_at w r.
Proof.
  intros Hsh r. specialize (Hsh r). unfold shape_at, kind_at in *.
  destruct (heap w' !! r) as [a|], (heap w !! r) as [b|]; cbn in *; try done.
  unfold shape, kind in *. congruence.
Qed.

Lemma well_typed_shape (w w' : world) :
  (∀ r, shape_at w' r = shape_at w r) →
  ∀ o, well_typed_observer w' o = well_typed_observer w o.
Proof. intros Hsh. by apply well_typed_kind, shape_kind. Qed.

(** A well-typed observer's [update()] returns, and is traced. *)
Lemma call_update_well_typed (o : ref) (w : world) :
  well_typed_observer w o = true →
  ∃ w', call_update o w = (Ok tt, w') ∧ calls w' = calls w ++ [o].
Proof.
  unfold well_typed_observer. intros Hwt.
  destruct (heap w !! o) as [obj|] eqn:Hobj; [|done].
  destruct obj as [obs t p h q|t s|h s|p s|q s|st obs|s|s]; cbn in Hwt; try done.
  all: destruct (heap w !! s) as [[obs' t' p' h' q'|t' s'|h' s'|p' s'|q' s'|st' obs'|s'|s']|] eqn:Hs;
    cbn in Hwt; try done.
  all: py_run; try (destruct (ButtonState_eqb _ _)); eexists; split; reflexivity.
Qed.

(** ** The broadcast over a fixed list *)

Lemma run_updates_app (l1 l2 : list ref) (w : world) :
  run_updates (l1 ++ l2) w = (run_updates l1 ;; run_updates l2) w.
Proof.
  revert w. induction l1 as [|o l1 IH]; intros w; [done|].
  cbn [app run_updates]. unfold bind.
  destruct (call_update o w) as [[[]| |] w1]; [|done..].
  rewrite IH. done.
Qed.

Lemma run_updates_shape (l : list ref) (w w' : world) (out : outcome unit) :
  run_updates l w = (out, w') → ∀ r, shape_at w' r = shape_at w r.
Proof.
  revert w. induction l as [|o l IH]; intros w E r.
  - by injection E as _ <-.
  - cbn [run_updates] in E. unfold bind in E.
    destruct (call_update o w) as [out1 w1] eqn:E1.
    pose proof (update_effect_shape _ _ _ _ (call_update_inv _ _ _ _ E1)) as Hsh.
    destruct out1 as [[]| |]; [|by injection E as _ <-..].
    by rewrite (IH _ E).
Qed.

Lemma run_updates_subject (l : list ref) (s : ref) (sobj : object)
    (w w' : world) (out : outcome unit) :
  run_updates l w = (out, w') →
  heap w !! s = Some sobj → update_method (class_of sobj) = None →
  heap w' !! s = Some sobj.
Proof.
  revert w. induction l as [|o l IH]; intros w E Hs Hnone.
  - by injection E as _ <-.
  - cbn [run_updates] in E. unfold bind in E.
    destruct (call_update o w) as [out1 w1] eqn:E1.
    apply call_update_inv in E1.
    pose proof (update_effect_subject _ _ _ _ _ _ E1 Hs Hnone) as Hs1.
    destruct out1 as [[]| |]; [|by injection E as _ <-..].
    by apply (IH w1).
Qed.

(** Whatever the outcome, the broadcast has traced a prefix of the list:
    nothing outside it, nothing twice, nothing out of order; and the whole
    list when it returned. *)
Lemma run_updates_calls (l : list ref) (w w' : world) (out : outcome unit) :
  run_updates l w = (out, w') →
  ∃ k, k ≤ length l ∧ calls w' = calls w ++ take k l ∧
       (out = Ok tt → k = length l).
Proof.
  revert w. induction l as [|o l IH]; intros w E.
  - injection E as <- <-. exists 0. by rewrite app_nil_r.
  - cbn [run_updates] in E. unfold bind in E.
    destruct (call_update o w) as [out1 w1] eqn:E1.
    apply call_update_inv in E1. destruct E1 as [_ Hc Hret _ _].
    destruct out1 as [[]| |].
    + destruct (IH _ E) as (k & Hk & Hcalls & Hok).
      exists (S k). cbn [take length]. rewrite Hcalls, Hret, <- app_assoc by done.
      split_and!; [lia|done|]. intros ?. by rewrite Hok.
    + injection E as <- <-.
      destruct (heap w !! o) as [obj|]; [destruct (update_method (class_of obj))|].
      * exists 1. cbn [take length]. split_and!; [lia|done|done].
      * exists 0. cbn [take length]. rewrite app_nil_r. split_and!; [lia|done|done].
      * exists 0. cbn [take length]. rewrite app_nil_r. split_and!; [lia|done|done].
    + injection E as <- <-.
      destruct (heap w !! o) as [obj|]; [destruct (update_method (class_of obj))|].
      * exists 1. cbn [take length]. split_and!; [lia|done|done].
      * exists 0. cbn [take length]. rewrite app_nil_r. split_and!; [lia|done|done].
      * exists 0. cbn [take length]. rewrite app_nil_r. split_and!; [lia|done|done].
Qed.

(** Store and output move forward only: what earlier calls wrote is still
    there when a later call does not return. *)
Lemma run_updates_well_typed (l : list ref) (w : world) :
  Forall (λ o, well_typed_observer w o = true) l →
  ∃ w', run_updates l w = (Ok tt, w') ∧ calls w' = calls w ++ l.
Proof.
  revert w. induction l as [|o l IH]; intros w Hwt.
  - exists w. by rewrite app_nil_r.
  - apply Forall_cons in Hwt as [Ho Hl].
    destruct (call_update_well_typed o w Ho) as (w1 & E1 & Hc1).
    pose proof (update_effect_shape _ _ _ _ (call_update_inv _ _ _ _ E1)) as Hsh.
    destruct (IH w1) as (w' & E & Hc).
    { eapply Forall_impl; [exact Hl|]. intros x Hx. cbn beta in *.
      by rewrite (well_typed_shape _ _ Hsh). }
    exists w'. cbn [run_updates]. unfold bind. rewrite E1, E.
    split; [done|]. by rewrite Hc, Hc1, <- app_assoc.
Qed.

(** ** The loop of [notifyObservers] *)

(** With fuel for the entries still ahead, the loop over the live list is
    the broadcast over the list as it stood; in particular it never runs out
    of fuel. *)
Lemma notify_loop_run_updates (fuel : nat) (s : ref) (i : nat) (obs : list ref) (w : world) :
  registry s w = Some obs → length obs ≤ fuel + i →
  notify_loop fuel s i w = run_updates (drop i obs) w.
Proof.
  revert i w. induction fuel as [|fuel IH]; intros i w Hreg Hlen.
  - rewrite drop_ge by lia. unfold registry in Hreg.
    destruct (heap w !! s) as [sobj|] eqn:Hs; [|done]. cbn in Hreg.
    cbn [notify_loop]. unfold getattr, bind, deref. rewrite Hs, Hreg. cbn.
    rewrite lookup_ge_None_2 by lia. done.
  - unfold registry in Hreg.
    destruct (heap w !! s) as [sobj|] eqn:Hs; [|done]. cbn in Hreg.
    cbn [notify_loop]. unfold getattr, bind at 1 2, deref. rewrite Hs, Hreg. unfold ret.
    destruct (obs !! i) as [o|] eqn:Hi.
    + rewrite (drop_S _ _ _ Hi). cbn [run_updates]. unfold bind.
      destruct (call_update o w) as [out1 w1] eqn:E1.
      destruct out1 as [[]| |]; [|done..].
      apply IH; [|lia].
      rewrite (registry_shape _ _ (update_effect_shape _ _ _ _ (call_update_inv _ _ _ _ E1))).
      unfold registry. by rewrite Hs.
    + apply lookup_ge_None_1 in Hi. by rewrite drop_ge.
Qed.

Lemma WeatherData_notifyObservers_run (s : ref) (obs : list ref) (w : world) :
  registry s w = Some obs →
  WeatherData_notifyObservers s w = run_updates obs w.
Proof.
  intros Hreg. pose proof Hreg as Hreg'. unfold registry in Hreg.
  destruct (heap w !! s) as [sobj|] eqn:Hs; [|done]. cbn in Hreg.
  unfold WeatherData_notifyObservers, getattr, bind, deref, ret.
  rewrite Hs, Hreg.
  by rewrite (notify_loop_run_updates _ _ _ _ _ Hreg') by lia.
Qed.

Lemma Button_notifyObservers_run (s : ref) (obs : list ref) (w : world) :
  registry s w = Some obs →
  Button_notifyObservers s w = run_updates obs w.
Proof. apply WeatherData_notifyObservers_run. Qed.

Lemma call_notifyObservers_run (s : ref) (obs : list ref) (w : world) :
  registry s w = Some obs →
  call_notifyObservers s w = run_updates obs w.
Proof.
  intros Hreg. pose proof Hreg as Hreg'. unfold registry in Hreg.
  destruct (heap w !! s) as [sobj|] eqn:Hs; [|done]. cbn in Hreg.
  unfold call_notifyObservers, bind, deref. rewrite Hs.
  destruct sobj; try done; cbn [class_of].
  - by apply WeatherData_notifyObservers_run.
  - by apply Button_notifyObservers_run.
Qed.

(** A broadcast leaves every registry as it was, whatever its outcome. *)
Lemma WeatherData_notifyObservers_shape (s : ref) (w w' : world) (out : outcome unit) :
  WeatherData_notifyObservers s w = (out, w') → ∀ r, shape_at w' r = shape_at w r.
Proof.
  intros E. destruct (registry s w) as [obs|] eqn:Hreg.
  - rewrite (WeatherData_notifyObservers_run _ _ _ Hreg) in E.
    by eapply run_updates_shape.
  - unfold registry in Hreg.
    unfold WeatherData_notifyObservers, getattr, bind, deref, ret, raise in E.
    destruct (heap w !! s) as [sobj|]; [|by injection E as _ <-].
    cbn in Hreg. rewrite Hreg in E. by injection E as _ <-.
Qed.

End Properties.

(** ** Registry calls *)

Lemma with_observers_fields (l : list ref) (obj obj' : object) :
  with_observers l obj = Some obj' →
  state_fields obj' = state_fields obj ∧ class_of obj' = class_of obj ∧
  attr_observers obj' = Some l ∧ attr_subject obj' = attr_subject obj.
Proof. destruct obj; intros [= <-]; done. Qed.

Lemma with_observers_is_Some (l obs : list ref) (obj : object) :
  attr_observers obj = Some obs → ∃ obj', with_observers l obj = Some obj'.
Proof. destruct obj; intros [= <-]; by eexists. Qed.

(** [registerObserver] on a subject: it returns, and the subject is
    rewritten with the observer appended to its registry. *)
Lemma call_registerObserver_spec (s o : ref) (sobj : object) (obs : list ref) (w : world) :
  heap w !! s = Some sobj → attr_observers sobj = Some obs →
  ∃ sobj', with_observers (obs ++ [o]) sobj = Some sobj' ∧
    call_registerObserver s o w =
      (Ok tt, World (<[s := sobj']> (heap w)) (stdout w) (calls w)).
Proof.
  intros Hs Hobs. destruct (with_observers_is_Some (obs ++ [o]) _ _ Hobs) as [sobj' Hw].
  exists sobj'. split; [done|].
  unfold call_registerObserver, WeatherData_registerObserver, Button_registerObserver.
  destruct sobj; try done; cbn in Hobs, Hw; simplify_eq; by py_run.
Qed.

(** [removeObserver] on a subject, by the answer of [list.remove]. *)
Lemma call_removeObserver_spec (s o : ref) (sobj : object) (obs : list ref) (w : world) :
  heap w !! s = Some sobj → attr_observers sobj = Some obs →
  match list_remove o obs with
  | Some obs' =>
      ∃ sobj', with_observers obs' sobj = Some sobj' ∧
        call_removeObserver s o w =
          (Ok tt, World (<[s := sobj']> (heap w)) (stdout w) (calls w))
  | None => call_removeObserver s o w = (Raise ValueError, w)
  end.
Proof.
  intros Hs Hobs.
  unfold call_removeObserver, WeatherData_removeObserver, Button_removeObserver.
  destruct (list_remove o obs) as [obs'|] eqn:Hrm.
  - destruct (with_observers_is_Some obs' _ _ Hobs) as [sobj' Hw].
    exists sobj'. split; [done|].
    destruct sobj; try done; cbn in Hobs, Hw; simplify_eq; py_run; rewrite Hrm; by py_run.
  - destruct sobj; try done; cbn in Hobs; simplify_eq; py_run; by rewrite Hrm.
Qed.

Lemma registry_insert (s : ref) (obj : object) (w : world) (out : string) (tr : list ref) :
  registry s (World (<[s := obj]> (heap w)) out tr) = attr_observers obj.
Proof. unfold registry. cbn [heap]. by rewrite lookup_insert_eq. Qed.

Lemma getattr_pure {A} (attr : object → option A) (r : ref) (w w' : world) (out : outcome A) :
  getattr attr r w = (out, w') → w' = w.
Proof.
  unfold getattr, bind, deref, ret, raise.
  destruct (heap w !! r) as [obj|]; [destruct (attr obj)|]; by intros [= _ <-].
Qed.

Lemma setattr_effect (upd : object → option object) (r : ref) (w w' : world)
    (out : outcome unit) :
  setattr upd r w = (out, w') →
  w' = w ∨
  ∃ obj obj', heap w !! r = Some obj ∧ upd obj = Some obj' ∧ out = Ok tt ∧
              w' = World (<[r := obj']> (heap w)) (stdout w) (calls w).
Proof.
  unfold setattr, bind, deref, store, stuck.
  destruct (heap w !! r) as [obj|]; [destruct (upd obj) as [obj'|] eqn:Hu|];
    intros [= <- <-]; [right; by exists obj, obj'|by left..].
Qed.

Lemma preserves_shape_bind {A B} (m : M A) (k : A → M B) :
  preserves_shape m → (∀ a, preserves_shape (k a)) → preserves_shape (bind m k).
Proof.
  intros Hm Hk w out w' E r. unfold bind in E.
  destruct (m w) as [out1 w1] eqn:E1.
  pose proof (Hm _ _ _ E1 r) as H1.
  destruct out1 as [a| |]; [|by injection E as _ <-..].
  by rewrite (Hk a _ _ _ E r).
Qed.

Lemma preserves_shape_setattr (upd : object → option object) (r : ref) :
  (∀ obj obj', upd obj = Some obj' → shape obj' = shape obj) →
  preserves_shape (setattr upd r).
Proof.
  intros Hupd w out w' E x.
  destruct (setattr_effect _ _ _ _ _ E) as [->|(obj & obj' & Ho & Hu & _ & ->)]; [done|].
  unfold shape_at. cbn [heap]. destruct (decide (x = r)) as [->|Hne].
  - rewrite lookup_insert_eq, Ho. cbn. by rewrite (Hupd _ _ Hu).
  - by rewrite lookup_insert_ne.
Qed.

Lemma with_measurement_shape (v : pyval) (obj obj' : object) :
  (with_temperature v obj = Some obj' → shape obj' = shape obj) ∧
  (with_pressure v obj = Some obj' → shape obj' = shape obj) ∧
  (with_humidity v obj = Some obj' → shape obj' = shape obj) ∧
  (with_pollen v obj = Some obj' → shape obj' = shape obj).
Proof. destruct obj; split_and!; by intros [= <-]. Qed.

Lemma with_state_shape (st : ButtonState) (obj obj' : object) :
  with_state st obj = Some obj' → shape obj' = shape obj.
Proof. destruct obj; by intros [= <-]. Qed.

Lemma fields_at_insert (w : world) (s : ref) (obj obj' : object) (out : string)
    (tr : list ref) :
  heap w !! s = Some obj → state_fields obj' = state_fields obj →
  ∀ r, fields_at (World (<[s := obj']> (heap w)) out tr) r = fields_at w r.
Proof.
  intros Hs Hf r. unfold fields_at. cbn [heap].
  destruct (decide (r = s)) as [->|Hne].
  - rewrite lookup_insert_eq, Hs. cbn. by rewrite Hf.
  - by rewrite lookup_insert_ne.
Qed.

Lemma registerObserver_untouched (s o : ref) (w : world) :
  state_untouched w (WeatherData_registerObserver s o w).2.
Proof.
  unfold WeatherData_registerObserver, bind.
  destruct (getattr attr_observers s w) as [out1 w1] eqn:E1.
  apply getattr_pure in E1 as ->.
  destruct out1 as [obs| |]; [|done..].
  destruct (setattr (with_observers (obs ++ [o])) s w) as [out2 w2] eqn:E2.
  destruct (setattr_effect _ _ _ _ _ E2) as [->|(obj & obj' & Ho & Hu & _ & ->)]; [done|].
  split_and!; [|done..].
  apply fields_at_insert with obj; [done|]. by apply with_observers_fields in Hu as [? _].
Qed.

Lemma removeObserver_untouched (s o : ref) (w : world) :
  state_untouched w (WeatherData_removeObserver s o w).2.
Proof.
  unfold WeatherData_removeObserver, bind.
  destruct (getattr attr_observers s w) as [out1 w1] eqn:E1.
  apply getattr_pure in E1 as ->.
  destruct out1 as [obs| |]; [|done..].
  destruct (list_remove o obs) as [obs'|]; [|done].
  destruct (setattr (with_observers obs') s w) as [out2 w2] eqn:E2.
  destruct (setattr_effect _ _ _ _ _ E2) as [->|(obj & obj' & Ho & Hu & _ & ->)]; [done|].
  split_and!; [|done..].
  apply fields_at_insert with obj; [done|]. by apply with_observers_fields in Hu as [? _].
Qed.

Lemma state_untouched_trans (w1 w2 w3 : world) :
  state_untouched w1 w2 → state_untouched w2 w3 → state_untouched w1 w3.
Proof.
  intros (Hf1 & Hc1 & Ho1) (Hf2 & Hc2 & Ho2). split_and!; [|congruence..].
  intros r. by rewrite Hf2.
Qed.

(** The world in which a subject has been given a new registry. *)
Lemma with_observers_world (s : ref) (sobj sobj' : object) (l : list ref) (w : world) :
  heap w !! s = Some sobj → with_observers l sobj = Some sobj' →
  let w' := World (<[s := sobj']> (heap w)) (stdout w) (calls w) in
  registry s w' = Some l ∧ state_untouched w w' ∧
  (∀ r, kind_at w' r = kind_at w r) ∧
  (∀ r, r ≠ s → heap w' !! r = heap w !! r).
Proof.
  intros Hs Hw w'. apply with_observers_fields in Hw as (Hf & Hc & Ho & Hsub).
  split_and!.
  - unfold w'. by rewrite registry_insert.
  - split_and!; [|done..]. by apply fields_at_insert with sobj.
  - intros r. unfold kind_at, w'. cbn [heap].
    destruct (decide (r = s)) as [->|Hne].
    + rewrite lookup_insert_eq, Hs. cbn. unfold kind. by rewrite Hc, Hsub.
    + by rewrite lookup_insert_ne.
  - intros r Hne. unfold w'. cbn [heap]. by rewrite lookup_insert_ne.
Qed.

Lemma do_registry_call_spec (s : ref) (c : registry_call) (obs : list ref) (w : world) :
  registry s w = Some obs →
  let w' := (do_registry_call s c w).2 in
  registry s w' = Some (registered_after [c] obs) ∧ state_untouched w w' ∧
  (∀ r, kind_at w' r = kind_at w r).
Proof.
  intros Hreg. pose proof Hreg as Hreg'. unfold registry in Hreg.
  destruct (heap w !! s) as [sobj|] eqn:Hs; [|done]. cbn in Hreg.
  destruct c as [o|o]; cbn [do_registry_call registered_after].
  - destruct (call_registerObserver_spec s o sobj obs w Hs Hreg) as (sobj' & Hw & ->).
    cbn [snd]. by destruct (with_observers_world _ _ _ _ _ Hs Hw) as (? & ? & ? & _).
  - pose proof (call_removeObserver_spec s o sobj obs w Hs Hreg) as Hrm.
    destruct (list_remove o obs) as [obs'|]; cbn [default].
    + destruct Hrm as (sobj' & Hw & ->). cbn [snd].
      by destruct (with_observers_world _ _ _ _ _ Hs Hw) as (? & ? & ? & _).
    + rewrite Hrm. cbn [snd]. done.
Qed.

Lemma after_calls_spec (s : ref) (cs : list registry_call) (obs0 : list ref) (w : world) :
  registry s w = Some obs0 →
  registry s (after_calls s cs w) = Some (registered_after cs obs0) ∧
  state_untouched w (after_calls s cs w) ∧
  (∀ r, kind_at (after_calls s cs w) r = kind_at w r).
Proof.
  revert obs0 w. induction cs as [|c cs IH]; intros obs0 w Hreg.
  - done.
  - destruct (do_registry_call_spec s c obs0 w Hreg) as (Hreg1 & Hu1 & Hk1).
    cbn [after_calls].
    destruct (IH _ _ Hreg1) as (Hreg2 & Hu2 & Hk2).
    split_and!.
    + rewrite Hreg2. by destruct c.
    + by eapply state_untouched_trans.
    + intros r. by rewrite Hk2.
Qed.

Lemma registry_Some (s : ref) (obs : list ref) (w : world) :
  registry s w = Some obs ↔
  ∃ sobj, heap w !! s = Some sobj ∧ attr_observers sobj = Some obs.
Proof.
  unfold registry. destruct (heap w !! s) as [sobj|]; cbn.
  - split; [by exists sobj|]. by intros (? & [= <-] & ?).
  - split; [done|]. by intros (? & ? & _).
Qed.

Lemma call_registerObserver_registry (s o : ref) (obs : list ref) (w : world) :
  registry s w = Some obs →
  ∃ w', call_registerObserver s o w = (Ok tt, w') ∧
        registry s w' = Some (obs ++ [o]) ∧ state_untouched w w' ∧
        (∀ r, kind_at w' r = kind_at w r) ∧
        (∀ r, r ≠ s → heap w' !! r = heap w !! r).
Proof.
  intros (sobj & Hs & Hobs)%registry_Some.
  destruct (call_registerObserver_spec s o sobj obs w Hs Hobs) as (sobj' & Hw & E).
  eexists. split; [exact E|]. by apply with_observers_world with sobj.
Qed.

Lemma call_removeObserver_registry (s o : ref) (obs obs' : list ref) (w : world) :
  registry s w = Some obs → list_remove o obs = Some obs' →
  ∃ w', call_removeObserver s o w = (Ok tt, w') ∧
        registry s w' = Some obs' ∧ state_untouched w w' ∧
        (∀ r, kind_at w' r = kind_at w r) ∧
        (∀ r, r ≠ s → heap w' !! r = heap w !! r).
Proof.
  intros (sobj & Hs & Hobs)%registry_Some Hrm.
  pose proof (call_removeObserver_spec s o sobj obs w Hs Hobs) as Hspec.
  rewrite Hrm in Hspec. destruct Hspec as (sobj' & Hw & E).
  eexists. split; [exact E|]. by apply with_observers_world with sobj.
Qed.

Lemma contains_in_line (out a needle b : string) :
  contains needle (out +:+ (a +:+ needle) +:+ b) = true.
Proof.
  rewrite (string_app_assoc a needle b), <- (string_app_assoc out a (needle +:+ b)).
  apply contains_middle.
Qed.

(** ** The claims *)

(** C4.  On a subject (a [WeatherData] or a [Button]) with registry [obs],
    [removeObserver(o)] takes out the first entry equal to [o] and nothing
    else: the entries before it, the entries after it, later duplicates of
    [o] included, stay in place and in order.  When [o] is not in the
    registry the call raises [ValueError], the error of [list.remove], and
    the world, the registry with it, is as before. *)
Theorem removeObserver_first_match_or_ValueError
    (w : world) (s o : ref) (obs : list ref) :
  registry s w = Some obs →
  (o ∈ obs →
     ∃ l1 l2 w', obs = l1 ++ o :: l2 ∧ (o ∉ l1) ∧
       call_removeObserver s o w = (Ok tt, w') ∧
       registry s w' = Some (l1 ++ l2)) ∧
  (o ∉ obs →
     call_removeObserver s o w = (Raise ValueError, w) ∧
     registry s w = Some obs).
Proof.
  intros Hreg. pose proof Hreg as Hreg'. unfold registry in Hreg.
  destruct (heap w !! s) as [sobj|] eqn:Hs; [|done]. cbn in Hreg.
  pose proof (call_removeObserver_spec s o sobj obs w Hs Hreg) as Hrm.
  split.
  - intros Hin. apply list_elem_of_split_l in Hin as (l1 & l2 & -> & Hni).
    rewrite list_remove_first in Hrm by done.
    destruct Hrm as (sobj' & Hw & E).
    eexists l1, l2, _. split_and!; [done|done|exact E|].
    rewrite registry_insert. by apply with_observers_fields in Hw as (_ & _ & ? & _).
  - intros Hni. rewrite list_remove_absent in Hrm by done. done.
Qed.

Lemma removeObserver_first_match_or_ValueError_witness :
  registry 0 abc_world = Some [1; 2; 3] ∧
  ((2 ∈ [1; 2; 3] →
      ∃ l1 l2 w', [1; 2; 3] = l1 ++ 2 :: l2 ∧ (2 ∉ l1) ∧
        call_removeObserver 0 2 abc_world = (Ok tt, w') ∧
        registry 0 w' = Some (l1 ++ l2)) ∧
   (2 ∉ [1; 2; 3] →
      call_removeObserver 0 2 abc_world = (Raise ValueError, abc_world) ∧
      registry 0 abc_world = Some [1; 2; 3])).
Proof.
  split; [reflexivity|].
  apply (removeObserver_first_match_or_ValueError abc_world 0 2 [1; 2; 3]).
  reflexivity.
Defined.

Section Claims.

Context `{Interpreter}.

(** C9.  Frame.  [registerObserver] and [removeObserver], of [WeatherData]
    and of [Button] alike and whatever their outcome, change no measurement
    or state attribute of any object (temperature, pressure, humidity, pollen,
    [_state]), invoke no [update()] and print nothing.  Conversely
    [set_measurements] (and [set_state]), whatever the outcome of the
    broadcast it ends with, leaves every registry as it was, contents and
    order. *)
Theorem registry_calls_and_mutations_frame (w : world) (s o : ref) :
  state_untouched w (WeatherData_registerObserver s o w).2 ∧
  state_untouched w (WeatherData_removeObserver s o w).2 ∧
  state_untouched w (Button_registerObserver s o w).2 ∧
  state_untouched w (Button_removeObserver s o w).2 ∧
  (∀ t p h q r,
     registry r (WeatherData_set_measurements s t p h q w).2 = registry r w) ∧
  (∀ st r, registry r (Button_set_state s st w).2 = registry r w).
Proof.
  split_and!.
  - apply registerObserver_untouched.
  - apply removeObserver_untouched.
  - apply registerObserver_untouched.
  - apply removeObserver_untouched.
  - intros t p h q r.
    destruct (WeatherData_set_measurements s t p h q w) as [out w'] eqn:E.
    apply registry_shape. revert E. generalize w out w'.
    change (preserves_shape (WeatherData_set_measurements s t p h q)).
    unfold WeatherData_set_measurements.
    repeat (apply preserves_shape_bind;
            [apply preserves_shape_setattr; intros obj obj';
             apply (with_measurement_shape _ obj obj')|intros _]).
    intros w0 out0 w0'. apply WeatherData_notifyObservers_shape.
  - intros st r.
    destruct (Button_set_state s st w) as [out w'] eqn:E.
    apply registry_shape. revert E. generalize w out w'.
    change (preserves_shape (Button_set_state s st)).
    unfold Button_set_state.
    apply preserves_shape_bind;
      [apply preserves_shape_setattr; intros obj obj'; apply with_state_shape|intros _].
    intros w0 out0 w0'. apply WeatherData_notifyObservers_shape.
Qed.

(** C10.  Constructors.  [WeatherData()] returns a new object with an empty
    registry and all four measurements at the float [0.0]: each getter
    returns [0.0], and a [notifyObservers()] before any registration returns
    with the world as it was, so without any [update()].  [Button()] returns
    a new object with an empty registry and state [ButtonState.ON]. *)
Theorem constructors_postcondition (w : world) :
  (∃ s w',
     WeatherData_init w = (Ok s, w') ∧ heap w !! s = None ∧
     heap w' !! s =
       Some (WeatherDataObj [] (PyFloat 0) (PyFloat 0) (PyFloat 0) (PyFloat 0)) ∧
     registry s w' = Some [] ∧
     WeatherData_get_temperature s w' = (Ok (PyFloat 0), w') ∧
     WeatherData_get_pressure s w' = (Ok (PyFloat 0), w') ∧
     WeatherData_get_humidity s w' = (Ok (PyFloat 0), w') ∧
     WeatherData_get_pollen s w' = (Ok (PyFloat 0), w') ∧
     WeatherData_notifyObservers s w' = (Ok tt, w') ∧
     call_notifyObservers s w' = (Ok tt, w')) ∧
  (∃ b w',
     Button_init w = (Ok b, w') ∧ heap w !! b = None ∧
     heap w' !! b = Some (ButtonObj ON []) ∧
     registry b w' = Some [] ∧
     Button_get_state b w' = (Ok ON, w') ∧
     Button_notifyObservers b w' = (Ok tt, w') ∧
     call_notifyObservers b w' = (Ok tt, w')).
Proof.
  assert (heap w !! fresh (dom (heap w)) = None) as Hfresh.
  { apply not_elem_of_dom, is_fresh. }
  split.
  - eexists _, _. split; [reflexivity|]. split; [exact Hfresh|].
    assert (registry (fresh (dom (heap w)))
              (World (<[fresh (dom (heap w)) :=
                        WeatherDataObj [] (PyFloat 0) (PyFloat 0) (PyFloat 0) (PyFloat 0)]>
                      (heap w)) (stdout w) (calls w)) = Some []) as Hreg.
    { by rewrite registry_insert. }
    split_and!; try (by py_run).
    + by rewrite (WeatherData_notifyObservers_run _ _ _ Hreg).
    + by rewrite (call_notifyObservers_run _ _ _ Hreg).
  - eexists _, _. split; [reflexivity|]. split; [exact Hfresh|].
    assert (registry (fresh (dom (heap w)))
              (World (<[fresh (dom (heap w)) := ButtonObj ON []]> (heap w))
                     (stdout w) (calls w)) = Some []) as Hreg.
    { by rewrite registry_insert. }
    split_and!; try (by py_run).
    + by rewrite (Button_notifyObservers_run _ _ _ Hreg).
    + by rewrite (call_notifyObservers_run _ _ _ Hreg).
Qed.

(** C1.  Take a subject (a [WeatherData] or a [Button]) and any sequence of
    [registerObserver] / [removeObserver] calls on it, observers typed as the
    source annotates them.  The registry then holds the registered observers
    in the order of their registration, without the entries the removals
    took out, and no [update()] has run so far.  A [notifyObservers()] that
    follows returns, and the [update()] invocations it makes are exactly the
    entries of the registry, one invocation per entry, in registry order:
    an observer is updated as many times as it is registered at that point,
    and an object that is not registered is not updated. *)
Theorem notifyObservers_updates_each_registered_in_order
    (w : world) (s : ref) (obs0 : list ref) (cs : list registry_call) :
  registry s w = Some obs0 →
  Forall (λ o, well_typed_observer w o = true) (registered_after cs obs0) →
  let w1 := after_calls s cs w in
  registry s w1 = Some (registered_after cs obs0) ∧
  calls w1 = calls w ∧
  ∃ w2 new,
    call_notifyObservers s w1 = (Ok tt, w2) ∧
    calls w2 = calls w1 ++ new ∧
    new = registered_after cs obs0 ∧
    (∀ o, occurrences o new = occurrences o (registered_after cs obs0)) ∧
    (∀ o, o ∉ registered_after cs obs0 → o ∉ new) ∧
    registry s w2 = Some (registered_after cs obs0).
Proof.
  intros Hreg Hwt w1.
  destruct (after_calls_spec s cs obs0 w Hreg) as (Hreg1 & (_ & Hc1 & _) & Hk1).
  fold w1 in Hreg1, Hc1, Hk1.
  split_and!; [done..|].
  rewrite (call_notifyObservers_run _ _ _ Hreg1).
  destruct (run_updates_well_typed (registered_after cs obs0) w1) as (w2 & E & Hc2).
  { eapply Forall_impl; [exact Hwt|]. intros o Ho. cbn beta in *.
    by rewrite (well_typed_kind _ _ Hk1). }
  exists w2, (registered_after cs obs0). split_and!; [done..|].
  by rewrite (registry_shape _ _ (run_updates_shape _ _ _ _ E)).
Qed.

(** C6.  On a subject whose registry does not hold [o], two
    [registerObserver(o)] calls in a row both return (the second one is not
    turned down although [o] is registered by then) and leave [o] twice at
    the end of the registry.  As long as the registry stays so, each
    [notifyObservers()] returns having invoked [update()] on [o] exactly
    twice, and leaves registry and typing as they were, so the same holds of
    the next one. *)
Theorem registering_twice_updates_twice (w : world) (s o : ref) (obs : list ref) :
  registry s w = Some obs → o ∉ obs →
  ∃ w1 w2,
    call_registerObserver s o w = (Ok tt, w1) ∧
    call_registerObserver s o w1 = (Ok tt, w2) ∧
    registry s w2 = Some (obs ++ [o; o]) ∧
    ∀ w3, registry s w3 = Some (obs ++ [o; o]) →
          Forall (λ x, well_typed_observer w3 x = true) (obs ++ [o; o]) →
          ∃ w4 new,
            call_notifyObservers s w3 = (Ok tt, w4) ∧
            calls w4 = calls w3 ++ new ∧ occurrences o new = 2 ∧
            registry s w4 = Some (obs ++ [o; o]) ∧
            Forall (λ x, well_typed_observer w4 x = true) (obs ++ [o; o]).
Proof.
  intros Hreg Hni.
  destruct (call_registerObserver_registry s o obs w Hreg) as (w1 & E1 & Hreg1 & _).
  destruct (call_registerObserver_registry s o _ w1 Hreg1) as (w2 & E2 & Hreg2 & _).
  rewrite <- app_assoc in Hreg2. cbn [app] in Hreg2.
  exists w1, w2. split_and!; [done..|].
  intros w3 Hreg3 Hwt3.
  rewrite (call_notifyObservers_run _ _ _ Hreg3).
  destruct (run_updates_well_typed _ w3 Hwt3) as (w4 & E & Hc).
  pose proof (run_updates_shape _ _ _ _ E) as Hsh.
  exists w4, (obs ++ [o; o]). split_and!; [done..| | |].
  - rewrite occurrences_app, !occurrences_cons, decide_True by done.
    apply occurrences_zero in Hni. rewrite Hni. done.
  - by rewrite (registry_shape _ _ Hsh).
  - eapply Forall_impl; [exact Hwt3|]. intros x Hx. cbn beta in *.
    by rewrite (well_typed_shape _ _ Hsh).
Qed.

(** C7.  On a subject whose registry holds [o] exactly once,
    [removeObserver(o)] returns and leaves a registry without [o].  It is
    not retroactive: the trace of past [update()] invocations, the output
    and every object but the subject are as before.  As long as the registry
    stays so, no [notifyObservers()], whatever its outcome, invokes
    [update()] on [o].  Scenario: A, B, C registered in this order and
    updated once with 5; after B is removed, a measurement of 10 invokes
    [update()] on A and C only, both observe 10, and B still holds 5. *)
Theorem removed_observer_gets_no_update (w : world) (s o : ref) (obs : list ref) :
  registry s w = Some obs → occurrences o obs = 1 →
  (∃ w1 obs',
     call_removeObserver s o w = (Ok tt, w1) ∧
     registry s w1 = Some obs' ∧ (o ∉ obs') ∧
     state_untouched w w1 ∧ (∀ r, r ≠ s → heap w1 !! r = heap w !! r) ∧
     ∀ w2 out w3,
       registry s w2 = Some obs' →
       call_notifyObservers s w2 = (out, w3) →
       ∃ new, calls w3 = calls w2 ++ new ∧ o ∉ new) ∧
  (let r := abc_scenario_without_b empty_world in
   r.1 = Ok (0, 1, 2, 3) ∧ calls r.2 = [1; 2; 3; 1; 3] ∧
   heap r.2 !! 1 = Some (TemperatureDisplayObj (PyInt 10) 0) ∧
   heap r.2 !! 2 = Some (TemperatureDisplayObj (PyInt 5) 0) ∧
   heap r.2 !! 3 = Some (TemperatureDisplayObj (PyInt 10) 0) ∧
   registry 0 r.2 = Some [1; 3]).
Proof.
  intros Hreg Hocc. split; [|by vm_compute].
  assert (o ∈ obs) as Hin.
  { destruct (decide (o ∈ obs)) as [|Hni]; [done|].
    apply occurrences_zero in Hni. lia. }
  apply list_elem_of_split_l in Hin as (l1 & l2 & -> & Hni1).
  assert (o ∉ l1 ++ l2) as Hni.
  { rewrite occurrences_app, occurrences_cons, decide_True in Hocc by done.
    apply not_elem_of_app. split; [done|]. apply occurrences_zero. lia. }
  destruct (call_removeObserver_registry s o _ (l1 ++ l2) w Hreg)
    as (w1 & E1 & Hreg1 & Hu & _ & Hother).
  { by apply list_remove_first. }
  exists w1, (l1 ++ l2). split_and!; [done..|].
  intros w2 out w3 Hreg2 E.
  rewrite (call_notifyObservers_run _ _ _ Hreg2) in E.
  destruct (run_updates_calls _ _ _ _ E) as (k & _ & Hc & _).
  exists (take k (l1 ++ l2)). split; [done|].
  intros Hin. by apply subseteq_take in Hin.
Qed.

(** [set_measurements] on a [WeatherData]: the three first arguments and the
    int 15 are stored, then the registry is notified in the world so
    changed. *)
Lemma WeatherData_set_measurements_run (w : world) (s : ref) (obs : list ref)
    (t0 p0 h0 q0 t p h q : pyval) :
  heap w !! s = Some (WeatherDataObj obs t0 p0 h0 q0) →
  WeatherData_set_measurements s t p h q w =
    run_updates obs
      (World (<[s := WeatherDataObj obs t p h (PyInt 15)]> (heap w)) (stdout w) (calls w)).
Proof.
  intros Hs. unfold WeatherData_set_measurements.
  py_run. rewrite !insert_insert_eq.
  apply WeatherData_notifyObservers_run. by rewrite registry_insert.
Qed.

(** C3.  After [set_measurements(t, p, h, q)] on a [WeatherData], whatever
    the outcome of the broadcast, the pollen attribute is the int 15 and
    [get_pollen()] returns it; and the call with any other fourth argument
    gives the same outcome and the same world. *)
Theorem set_measurements_pollen_is_15 (w : world) (s : ref) (obs : list ref)
    (t0 p0 h0 q0 t p h q : pyval) :
  heap w !! s = Some (WeatherDataObj obs t0 p0 h0 q0) →
  let r := WeatherData_set_measurements s t p h q w in
  heap r.2 !! s = Some (WeatherDataObj obs t p h (PyInt 15)) ∧
  WeatherData_get_pollen s r.2 = (Ok (PyInt 15), r.2) ∧
  ∀ q', WeatherData_set_measurements s t p h q' w = r.
Proof.
  intros Hs r.
  assert (heap r.2 !! s = Some (WeatherDataObj obs t p h (PyInt 15))) as Hs'.
  { unfold r. rewrite (WeatherData_set_measurements_run _ _ _ _ _ _ _ t p h q Hs).
    destruct (run_updates _ _) as [out w'] eqn:E.
    eapply run_updates_subject; [exact E| |done].
    cbn [heap]. by rewrite lookup_insert_eq. }
  split_and!; [done| |done].
  unfold WeatherData_get_pollen, getattr, bind, deref. by rewrite Hs'.
Qed.

(** C2.  The first [set_measurements] call of the [__main__] block,
    [set_measurements(50.0, 120, 120, 123)]: temperature, pressure and
    humidity take the arguments and the registered pressure display prints
    the new pressure, but the pollen attribute is 15, not the argument
    123. *)
Theorem set_measurements_drops_pollen_argument :
  let r := main_first_measurement empty_world in
  r.1 = Ok 0 ∧
  heap r.2 !! 0 =
    Some (WeatherDataObj [1] (PyFloat 50) (PyInt 120) (PyInt 120) (PyInt 15)) ∧
  WeatherData_get_pollen 0 r.2 = (Ok (PyInt 15), r.2) ∧
  PyInt 15 ≠ PyInt 123 ∧
  calls r.2 = [1] ∧
  heap r.2 !! 1 = Some (PressureDisplayObj (PyInt 120) 0).
Proof. vm_compute. by split_and!. Qed.

(** C5.  Let the registry of a subject be [obs], let the [update()] calls on
    the entries before position [i] return, and let the [update()] of the
    observer at position [i] raise [e].  Then [notifyObservers()] raises [e]
    in the world the failing call left: the trace holds the invocations on
    the entries up to position [i] and none on the entries after it, and
    store and output are those the earlier calls built. *)
Theorem update_exception_aborts_broadcast
    (w w1 w2 : world) (s o : ref) (obs : list ref) (i : nat) (obj : object) (e : exn) :
  registry s w = Some obs →
  obs !! i = Some o →
  run_updates (take i obs) w = (Ok tt, w1) →
  heap w1 !! o = Some obj → is_Some (update_method (class_of obj)) →
  call_update o w1 = (Raise e, w2) →
  call_notifyObservers s w = (Raise e, w2) ∧
  calls w1 = calls w ++ take i obs ∧
  calls w2 = calls w ++ take (S i) obs ∧
  heap w2 = heap w1 ∧ stdout w2 = stdout w1.
Proof.
  intros Hreg Hi E1 Hobj Hm E2.
  rewrite (call_notifyObservers_run _ _ _ Hreg).
  assert (calls w1 = calls w ++ take i obs) as Hc1.
  { destruct (run_updates_calls _ _ _ _ E1) as (k & Hk & Hc & Hok).
    rewrite Hok in Hc by done. by rewrite firstn_all in Hc. }
  destruct (call_update_inv _ _ _ _ E2) as [_ Hc2 _ _ Habort].
  rewrite Hobj in Hc2. destruct Hm as [body Hbody]. rewrite Hbody in Hc2.
  destruct Habort as [Hh Hout]; [done|].
  split_and!; [|done| |done..].
  - rewrite <- (take_drop_middle obs i o Hi), run_updates_app.
    unfold bind. rewrite E1. cbn [run_updates]. unfold bind. by rewrite E2.
  - rewrite (take_S_r _ _ _ Hi), app_assoc, <- Hc1. done.
Qed.

(** C8.  Each display's [update()] takes the receiver alone and returns
    [None].  On a display built on a [WeatherData], it gets its measurement
    from the subject's getter, stores it in its own attribute and calls
    [display()], which prints a line holding the text of the value just
    pulled; e.g. with a subject temperature of [60.0] the output holds
    [temperature is: 60.0] (the text of the float being that of the
    interpreter). *)
Theorem display_update_pulls_stores_prints
    (w : world) (self s : ref) (v0 : pyval) (obs : list ref) (t p h q : pyval) :
  heap w !! s = Some (WeatherDataObj obs t p h q) →
  (heap w !! self = Some (TemperatureDisplayObj v0 s) →
     WeatherData_get_temperature s w = (Ok t, w) ∧
     TemperatureDisplay_update self w =
       display_result w self (TemperatureDisplayObj t s)
         ("The current temperature is: " +:+ format_value t) ∧
     contains (format_value t) (stdout (TemperatureDisplay_update self w).2) = true ∧
     (t = PyFloat 60 → float_repr 60 = "60.0" →
      contains "temperature is: 60.0"
        (stdout (TemperatureDisplay_update self w).2) = true)) ∧
  (heap w !! self = Some (HumidityDisplayObj v0 s) →
     WeatherData_get_humidity s w = (Ok h, w) ∧
     HumidityDisplay_update self w =
       display_result w self (HumidityDisplayObj h s)
         ("The current humidity is: " +:+ format_value h) ∧
     contains (format_value h) (stdout (HumidityDisplay_update self w).2) = true) ∧
  (heap w !! self = Some (PressureDisplayObj v0 s) →
     WeatherData_get_pressure s w = (Ok p, w) ∧
     PressureDisplay_update self w =
       display_result w self (PressureDisplayObj p s)
         ("The current pressure is: " +:+ format_value p) ∧
     contains (format_value p) (stdout (PressureDisplay_update self w).2) = true) ∧
  (heap w !! self = Some (PollenDisplayObj v0 s) →
     WeatherData_get_pollen s w = (Ok q, w) ∧
     PollenDisplay_update self w =
       display_result w self (PollenDisplayObj q s)
         ("The current pollen is: " +:+ format_value q) ∧
     contains (format_value q) (stdout (PollenDisplay_update self w).2) = true).
Proof.
  intros Hs. split_and!; intros Hself.
  - assert (TemperatureDisplay_update self w =
              display_result w self (TemperatureDisplayObj t s)
                ("The current temperature is: " +:+ format_value t)) as E
      by (unfold display_result; by py_run).
    rewrite E. unfold display_result. cbn [snd stdout].
    split_and!; [by py_run|done|apply contains_in_line|].
    intros -> Hrepr. cbn [format_value]. rewrite Hrepr.
    apply (contains_in_line (stdout w) "The current " "temperature is: 60.0" newline).
  - assert (HumidityDisplay_update self w =
              display_result w self (HumidityDisplayObj h s)
                ("The current humidity is: " +:+ format_value h)) as E
      by (unfold display_result; by py_run).
    rewrite E. unfold display_result. cbn [snd stdout].
    split_and!; [by py_run|done|apply contains_in_line].
  - assert (PressureDisplay_update self w =
              display_result w self (PressureDisplayObj p s)
                ("The current pressure is: " +:+ format_value p)) as E
      by (unfold display_result; by py_run).
    rewrite E. unfold display_result. cbn [snd stdout].
    split_and!; [by py_run|done|apply contains_in_line].
  - assert (PollenDisplay_update self w =
              display_result w self (PollenDisplayObj q s)
                ("The current pollen is: " +:+ format_value q)) as E
      by (unfold display_result; by py_run).
    rewrite E. unfold display_result. cbn [snd stdout].
    split_and!; [by py_run|done|apply contains_in_line].
Qed.

End Claims.

(** ** The claims on concrete worlds *)

Lemma notifyObservers_updates_each_registered_in_order_witness :
  registry 0 abc_world = Some [1; 2; 3] ∧
  Forall (λ o, well_typed_observer abc_world o = true)
    (registered_after [Remove 2; Register 2; Remove 7; Register 1; Remove 1] [1; 2; 3]) ∧
  registered_after [Remove 2; Register 2; Remove 7; Register 1; Remove 1] [1; 2; 3] = [3; 2; 1] ∧
  ∃ w2,
    call_notifyObservers (H := integral_interpreter) 0
      (after_calls 0 [Remove 2; Register 2; Remove 7; Register 1; Remove 1] abc_world)
      = (Ok tt, w2) ∧
    calls w2 = [3; 2; 1].
Proof.
  assert (Forall (λ o, well_typed_observer abc_world o = true)
            (registered_after [Remove 2; Register 2; Remove 7; Register 1; Remove 1] [1; 2; 3]))
    as Hwt by (repeat constructor).
  split_and!; [reflexivity|exact Hwt|reflexivity|].
  destruct (notifyObservers_updates_each_registered_in_order (H := integral_interpreter)
              abc_world 0 [1; 2; 3] [Remove 2; Register 2; Remove 7; Register 1; Remove 1]
              eq_refl Hwt) as (_ & Hc1 & w2 & new & E & Hc2 & -> & _).
  exists w2. split; [exact E|]. rewrite Hc2, Hc1. reflexivity.
Defined.

Lemma set_measurements_pollen_is_15_witness :
  heap abc_world !! 0 =
    Some (WeatherDataObj [1; 2; 3] (PyFloat 0) (PyFloat 0) (PyFloat 0) (PyFloat 0)) ∧
  WeatherData_get_pollen 0
    (WeatherData_set_measurements (H := integral_interpreter) 0
       (PyFloat 60) (PyInt 105) (PyInt 100) (PyInt 123) abc_world).2
  = (Ok (PyInt 15),
     (WeatherData_set_measurements (H := integral_interpreter) 0
        (PyFloat 60) (PyInt 105) (PyInt 100) (PyInt 123) abc_world).2).
Proof.
  split; [reflexivity|].
  apply (set_measurements_pollen_is_15 (H := integral_interpreter) abc_world 0 [1; 2; 3]
           (PyFloat 0) (PyFloat 0) (PyFloat 0) (PyFloat 0)
           (PyFloat 60) (PyInt 105) (PyInt 100) (PyInt 123)).
  reflexivity.
Defined.

Lemma update_exception_aborts_broadcast_witness :
  let w1 := (run_updates (H := integral_interpreter) [1] mistyped_world).2 in
  let w2 := (call_update (H := integral_interpreter) 2 w1).2 in
  registry 0 mistyped_world = Some [1; 2; 3] ∧
  [1; 2; 3] !! 1 = Some 2 ∧
  run_updates (H := integral_interpreter) (take 1 [1; 2; 3]) mistyped_world = (Ok tt, w1) ∧
  heap w1 !! 2 = Some (TemperatureDisplayObj (PyFloat 0) 4) ∧
  is_Some (update_method (H := integral_interpreter)
             (class_of (TemperatureDisplayObj (PyFloat 0) 4))) ∧
  call_update (H := integral_interpreter) 2 w1 = (Raise AttributeError, w2) ∧
  call_notifyObservers (H := integral_interpreter) 0 mistyped_world
    = (Raise AttributeError, w2) ∧
  calls w2 = [1; 2].
Proof.
  intros w1 w2.
  assert (run_updates (H := integral_interpreter) (take 1 [1; 2; 3]) mistyped_world
          = (Ok tt, w1)) as E1 by (vm_compute; reflexivity).
  assert (call_update (H := integral_interpreter) 2 w1 = (Raise AttributeError, w2))
    as E2 by (vm_compute; reflexivity).
  assert (is_Some (update_method (H := integral_interpreter)
                     (class_of (TemperatureDisplayObj (PyFloat 0) 4)))) as Hm
    by (eexists; reflexivity).
  destruct (update_exception_aborts_broadcast (H := integral_interpreter)
              mistyped_world w1 w2 0 2 [1; 2; 3] 1 (TemperatureDisplayObj (PyFloat 0) 4)
              AttributeError eq_refl eq_refl E1 eq_refl Hm E2) as (E & _ & Hc & _).
  split_and!; [reflexivity|reflexivity|exact E1|reflexivity|exact Hm|exact E2|exact E|].
  rewrite Hc. reflexivity.
Defined.

Lemma registering_twice_updates_twice_witness :
  registry 0 unregistered_world = Some [] ∧ (1 ∉ ([] : list nat)) ∧
  ∃ w1 w2,
    call_registerObserver 0 1 unregistered_world = (Ok tt, w1) ∧
    call_registerObserver 0 1 w1 = (Ok tt, w2) ∧
    registry 0 w2 = Some [1; 1].
Proof.
  split; [reflexivity|]. split; [apply not_elem_of_nil|].
  destruct (registering_twice_updates_twice (H := integral_interpreter)
              unregistered_world 0 1 [] eq_refl (not_elem_of_nil 1))
    as (w1 & w2 & E1 & E2 & Hreg & _).
  exists w1, w2. split_and!; [exact E1|exact E2|exact Hreg].
Defined.

Lemma removed_observer_gets_no_update_witness :
  registry 0 abc_world = Some [1; 2; 3] ∧ occurrences 2 [1; 2; 3] = 1 ∧
  ∃ w1 obs',
    call_removeObserver 0 2 abc_world = (Ok tt, w1) ∧
    registry 0 w1 = Some obs' ∧ 2 ∉ obs'.
Proof.
  split; [reflexivity|]. split; [reflexivity|].
  destruct (removed_observer_gets_no_update (H := integral_interpreter)
              abc_world 0 2 [1; 2; 3] eq_refl eq_refl)
    as ((w1 & obs' & E & Hreg & Hni & _) & _).
  exists w1, obs'. split_and!; [exact E|exact Hreg|exact Hni].
Defined.

Lemma display_update_pulls_stores_prints_witness :
  heap mistyped_world !! 0 =
    Some (WeatherDataObj [1; 2; 3] (PyFloat 60) (PyInt 105) (PyInt 100) (PyInt 15)) ∧
  heap mistyped_world !! 1 = Some (TemperatureDisplayObj (PyFloat 0) 0) ∧
  float_repr (Interpreter := integral_interpreter) 60 = "60.0" ∧
  contains "temperature is: 60.0"
    (stdout (TemperatureDisplay_update (H := integral_interpreter) 1 mistyped_world).2)
  = true.
Proof.
  split_and!; [reflexivity..|].
  destruct (display_update_pulls_stores_prints (H := integral_interpreter)
              mistyped_world 1 0 (PyFloat 0) [1; 2; 3]
              (PyFloat 60) (PyInt 105) (PyInt 100) (PyInt 15) eq_refl) as (Ht & _).
  destruct (Ht eq_refl) as (_ & _ & _ & Hex).
  exact (Hex eq_refl eq_refl).
Defined.

(** ** Displays in step with their subjects *)

Section Sync.

Context `{Interpreter}.

Lemma in_sync_heap (w w' : world) (o : ref) :
  heap w' = heap w → in_sync w o → in_sync w' o.
Proof.
  intros Hh (obj & Ho & Hs). exists obj. rewrite Hh. split; [done|].
  rewrite Hs. destruct obj; cbn [source_value]; by rewrite ?Hh.
Qed.

(** An [update()] that returned has brought its receiver in step. *)
Lemma call_update_in_sync (o : ref) (w w' : world) :
  call_update o w = (Ok tt, w') → in_sync w' o.
Proof.
  unfold in_sync.
  destruct (heap w !! o) as [obj|] eqn:Hobj; [|by py_run].
  destruct obj as [obs t p h q|t s|h s|p s|q s|st obs|s|s];
    try (destruct (heap w !! s) as [[obs' t' p' h' q'|t' s'|h' s'|p' s'|q' s'|st' obs'|s'|s']|] eqn:Hs).
  all: py_run; try done.
  all: try (destruct (ButtonState_eqb _ _)); intros [= <-]; cbn [heap].
  all: try (eexists; split; [exact Hobj|reflexivity]).
  all: assert (s ≠ o) by congruence.
  all: eexists; split; [apply lookup_insert_eq|];
    cbn [shown source_value heap]; by rewrite lookup_insert_ne, Hs.
Qed.

Lemma source_value_insert (w w' : world) (o : ref) (obj obj' : object) :
  heap w' = <[o := obj']> (heap w) → heap w !! o = Some obj →
  class_of obj' = class_of obj → is_Some (update_method (class_of obj)) →
  ∀ x, source_value w' x = source_value w x.
Proof.
  intros Hh Ho Hc Hm x.
  assert (∀ s, (∃ obs t p h q, heap w' !! s = Some (WeatherDataObj obs t p h q)) ∨
               (∃ obs t p h q, heap w !! s = Some (WeatherDataObj obs t p h q)) →
               heap w' !! s = heap w !! s) as Hsame.
  { intros s Hwd. rewrite Hh in *. destruct (decide (s = o)) as [->|Hne].
    - rewrite lookup_insert_eq, Ho in Hwd. exfalso.
      destruct Hwd as [(? & ? & ? & ? & ? & [= ->])|(? & ? & ? & ? & ? & [= ->])];
        [rewrite <- Hc in Hm|]; cbn in Hm; by destruct Hm.
    - by rewrite lookup_insert_ne. }
  destruct x as [obs t p h q|t s|h s|p s|q s|st obs|s|s]; cbn [source_value]; try done.
  all: destruct (heap w' !! s) as [[]|] eqn:E1; destruct (heap w !! s) as [[]|] eqn:E2;
    try done.
  all: try (assert (heap w' !! s = heap w !! s) as Heq
              by (apply Hsame; rewrite ?E1, ?E2; eauto 10);
            rewrite E1, E2 in Heq; by simplify_eq).
Qed.

(** No [update()] brings another object out of step. *)
Lemma call_update_sync_preserved (o o' : ref) (w w' : world) (out : outcome unit) :
  call_update o w = (out, w') → in_sync w o' → in_sync w' o'.
Proof.
  intros E Hsync. pose proof (call_update_inv _ _ _ _ E) as [Hheap _ _ _ Habort].
  destruct out as [[]| |].
  2,3: destruct Habort as [Hh _]; [done|]; by apply in_sync_heap with w.
  destruct Hheap as [Hh|(obj & obj' & Ho & Hsh & Hm & Hh)].
  { by apply in_sync_heap with w. }
  destruct (decide (o' = o)) as [->|Hne].
  { by eapply call_update_in_sync. }
  destruct Hsync as (x & Hx & Hs). exists x. split.
  - by rewrite Hh, lookup_insert_ne.
  - rewrite Hs. symmetry. eapply source_value_insert; [exact Hh|exact Ho| |exact Hm].
    unfold shape in Hsh. congruence.
Qed.

(** On an object in step, [update()] leaves the store as it is. *)
Lemma call_update_in_sync_noop (o : ref) (w w' : world) (out : outcome unit) :
  in_sync w o → call_update o w = (out, w') → heap w' = heap w.
Proof.
  intros (obj & Hobj & Hs).
  destruct obj as [obs t p h q|t s|h s|p s|q s|st obs|s|s]; cbn [shown source_value] in Hs;
    try (destruct (heap w !! s) as [[obs' t' p' h' q'|t' s'|h' s'|p' s'|q' s'|st' obs'|s'|s']|] eqn:Hsub);
    try done.
  all: py_run; try (destruct (ButtonState_eqb _ _)); intros [= _ <-]; cbn [heap]; try done.
  all: injection Hs as ->; by apply insert_id.
Qed.

(** An [update()] returns only on a receiver typed as the source annotates
    it. *)
Lemma call_update_Ok_well_typed (o : ref) (w w' : world) :
  call_update o w = (Ok tt, w') → well_typed_observer w o = true.
Proof.
  unfold well_typed_observer.
  destruct (heap w !! o) as [obj|] eqn:Hobj; [|by py_run].
  destruct obj as [obs t p h q|t s|h s|p s|q s|st obs|s|s];
    try (destruct (heap w !! s) as [[obs' t' p' h' q'|t' s'|h' s'|p' s'|q' s'|st' obs'|s'|s']|] eqn:Hs).
  all: py_run; cbn; rewrite ?Hs; try done.
Qed.

Lemma run_updates_sync_preserved (l : list ref) (o : ref) (w w' : world)
    (out : outcome unit) :
  run_updates l w = (out, w') → in_sync w o → in_sync w' o.
Proof.
  revert w. induction l as [|x l IH]; intros w E Hs.
  - by injection E as _ <-.
  - cbn [run_updates] in E. unfold bind in E.
    destruct (call_update x w) as [out1 w1] eqn:E1.
    pose proof (call_update_sync_preserved _ _ _ _ _ E1 Hs) as Hs1.
    destruct out1 as [[]| |]; [|by injection E as _ <-..].
    by apply (IH w1).
Qed.

(** A broadcast that returned has brought every entry in step. *)
Lemma run_updates_in_sync (l : list ref) (w w' : world) :
  run_updates l w = (Ok tt, w') → ∀ o, o ∈ l → in_sync w' o.
Proof.
  revert w. induction l as [|x l IH]; intros w E o Hin.
  - by apply not_elem_of_nil in Hin.
  - cbn [run_updates] in E. unfold bind in E.
    destruct (call_update x w) as [out1 w1] eqn:E1.
    destruct out1 as [[]| |]; [|done..].
    apply elem_of_cons in Hin as [->|Hin].
    + eapply run_updates_sync_preserved; [exact E|]. by eapply call_update_in_sync.
    + by apply (IH w1).
Qed.

Lemma run_updates_in_sync_noop (l : list ref) (w w' : world) (out : outcome unit) :
  (∀ o, o ∈ l → in_sync w o) → run_updates l w = (out, w') → heap w' = heap w.
Proof.
  revert w. induction l as [|x l IH]; intros w Hs E.
  - by injection E as _ <-.
  - cbn [run_updates] in E. unfold bind in E.
    destruct (call_update x w) as [out1 w1] eqn:E1.
    assert (heap w1 = heap w) as Hh1.
    { eapply call_update_in_sync_noop; [|exact E1]. apply Hs, elem_of_cons; by left. }
    destruct out1 as [[]| |]; [|by injection E as _ <-..].
    rewrite <- Hh1. apply IH; [|done].
    intros o Ho. apply in_sync_heap with w; [done|]. apply Hs, elem_of_cons; by right.
Qed.

Lemma run_updates_Ok_well_typed (l : list ref) (w w' : world) :
  run_updates l w = (Ok tt, w') → Forall (λ o, well_typed_observer w o = true) l.
Proof.
  revert w. induction l as [|x l IH]; intros w E; [done|].
  cbn [run_updates] in E. unfold bind in E.
  destruct (call_update x w) as [out1 w1] eqn:E1.
  destruct out1 as [[]| |]; [|done..].
  constructor; [by eapply call_update_Ok_well_typed|].
  eapply Forall_impl; [exact (IH _ E)|]. intros o Ho. cbn beta in *.
  by rewrite <- (well_typed_shape _ _
    (update_effect_shape _ _ _ _ (call_update_inv _ _ _ _ E1))).
Qed.

End Sync.

(** ** Further properties of the subjects *)

Section Subjects.

Context `{Interpreter}.

Lemma Button_set_state_run (w : world) (b : ref) (obs : list ref) (st0 st : ButtonState) :
  heap w !! b = Some (ButtonObj st0 obs) →
  Button_set_state b st w =
    run_updates obs (World (<[b := ButtonObj st obs]> (heap w)) (stdout w) (calls w)).
Proof.
  intros Hb. unfold Button_set_state. py_run.
  apply Button_notifyObservers_run. by rewrite registry_insert.
Qed.

Lemma run_updates_stdout (l : list ref) (w w' : world) (out : outcome unit) :
  run_updates l w = (out, w') → ∃ text, stdout w' = stdout w +:+ text.
Proof.
  revert w. induction l as [|o l IH]; intros w E.
  - injection E as _ <-. exists "". by rewrite string_app_nil_r.
  - cbn [run_updates] in E. unfold bind in E.
    destruct (call_update o w) as [out1 w1] eqn:E1.
    destruct (call_update_inv _ _ _ _ E1) as [_ _ _ [t1 Ht1] _].
    destruct out1 as [[]| |]; [|injection E as _ <-; by exists t1..].
    destruct (IH _ E) as [t2 Ht2]. exists (t1 +:+ t2).
    by rewrite Ht2, Ht1, string_app_assoc.
Qed.

Lemma call_notifyObservers_cases (s : ref) (w w' : world) (out : outcome unit) :
  call_notifyObservers s w = (out, w') →
  (∃ obs, registry s w = Some obs ∧ run_updates obs w = (out, w')) ∨
  (w' = w ∧ out ≠ Ok tt).
Proof.
  intros E. destruct (registry s w) as [obs|] eqn:Hreg.
  - left. exists obs. by rewrite <- (call_notifyObservers_run _ _ _ Hreg).
  - right. unfold registry in Hreg. revert E.
    unfold call_notifyObservers, bind, deref, raise.
    destruct (heap w !! s) as [[]|]; try done; by intros [= <- <-].
Qed.

(** X1.  After [set_measurements(t, p, h, q)] on a [WeatherData], whatever
    the outcome of the broadcast, [get_temperature()], [get_pressure()] and
    [get_humidity()] return [t], [p] and [h], and reading changes nothing. *)
Theorem getters_return_the_stored_measurements
    (w : world) (s : ref) (obs : list ref) (t0 p0 h0 q0 t p h q : pyval) :
  heap w !! s = Some (WeatherDataObj obs t0 p0 h0 q0) →
  let w' := (WeatherData_set_measurements s t p h q w).2 in
  WeatherData_get_temperature s w' = (Ok t, w') ∧
  WeatherData_get_pressure s w' = (Ok p, w') ∧
  WeatherData_get_humidity s w' = (Ok h, w').
Proof.
  intros Hs w'.
  assert (heap w' !! s = Some (WeatherDataObj obs t p h (PyInt 15))) as Hs'.
  { unfold w'. rewrite (WeatherData_set_measurements_run _ _ _ _ _ _ _ t p h q Hs).
    destruct (run_updates _ _) as [out w1] eqn:E.
    eapply run_updates_subject; [exact E| |done].
    cbn [heap]. by rewrite lookup_insert_eq. }
  split_and!; by py_run.
Qed.

(** X2.  After [set_state(st)] on a [Button], whatever the outcome of the
    broadcast, [get_state()] returns [st] and changes nothing, and the
    registry of the button is as before. *)
Theorem get_state_returns_the_state_set
    (w : world) (b : ref) (obs : list ref) (st0 st : ButtonState) :
  heap w !! b = Some (ButtonObj st0 obs) →
  let w' := (Button_set_state b st w).2 in
  heap w' !! b = Some (ButtonObj st obs) ∧
  Button_get_state b w' = (Ok st, w').
Proof.
  intros Hb w'.
  assert (heap w' !! b = Some (ButtonObj st obs)) as Hb'.
  { unfold w'. rewrite (Button_set_state_run _ _ _ _ st Hb).
    destruct (run_updates _ _) as [out w1] eqn:E.
    eapply run_updates_subject; [exact E| |done].
    cbn [heap]. by rewrite lookup_insert_eq. }
  split; [done|]. by py_run.
Qed.

(** X5.  A [notifyObservers()], on any receiver and whatever its outcome,
    creates and deletes no object, changes no object's class, registry or
    subject reference, only appends to the output, and only appends to the
    trace of [update()] invocations. *)
Theorem notifyObservers_only_appends (w w' : world) (s : ref) (out : outcome unit) :
  call_notifyObservers s w = (out, w') →
  dom (heap w') = dom (heap w) ∧
  (∀ r, shape_at w' r = shape_at w r) ∧
  (∃ text, stdout w' = stdout w +:+ text) ∧
  (∃ new, calls w' = calls w ++ new).
Proof.
  intros E.
  destruct (call_notifyObservers_cases _ _ _ _ E) as [(obs & Hreg & Er)|[-> _]].
  - pose proof (run_updates_shape _ _ _ _ Er) as Hsh.
    split_and!; [|done|by eapply run_updates_stdout|].
    + apply set_eq. intros r. rewrite !elem_of_dom.
      specialize (Hsh r). unfold shape_at in Hsh.
      destruct (heap w' !! r), (heap w !! r); cbn in Hsh; try done;
        split; intros [? ?]; done.
    + destruct (run_updates_calls _ _ _ _ Er) as (k & _ & Hc & _). by eexists.
  - split_and!; [done|done| |].
    + exists "". by rewrite string_app_nil_r.
    + exists []. by rewrite app_nil_r.
Qed.

(** X9.  [registerObserver] takes any object, the subject itself included.
    When the broadcast reaches a registry entry whose class has no [update]
    method (a [WeatherData] or a [Button]), it raises [AttributeError]
    there: the entries before it have been updated, the entry itself and the
    entries after it have not. *)
Theorem entry_without_update_raises_AttributeError
    (w w1 : world) (s o : ref) (obs : list ref) (i : nat) (obj : object) :
  registry s w = Some obs →
  obs !! i = Some o →
  run_updates (take i obs) w = (Ok tt, w1) →
  heap w1 !! o = Some obj → update_method (class_of obj) = None →
  (∀ x, ∃ w', call_registerObserver s x w = (Ok tt, w') ∧
              registry s w' = Some (obs ++ [x])) ∧
  call_notifyObservers s w = (Raise AttributeError, w1) ∧
  calls w1 = calls w ++ take i obs.
Proof.
  intros Hreg Hi E1 Hobj Hm.
  rewrite (call_notifyObservers_run _ _ _ Hreg).
  split_and!.
  - intros x. destruct (call_registerObserver_registry s x obs w Hreg) as (w' & ? & ? & _).
    by exists w'.
  - rewrite <- (take_drop_middle obs i o Hi), run_updates_app.
    unfold bind. rewrite E1. cbn [run_updates]. unfold bind, call_update at 1, bind, deref.
    by rewrite Hobj, Hm.
  - destruct (run_updates_calls _ _ _ _ E1) as (k & Hk & Hc & Hok).
    rewrite Hok in Hc by done. by rewrite firstn_all in Hc.
Qed.

(** X3.  [set_measurements(t, p, h, q)] on a [WeatherData] whose registry
    holds observers typed as the source annotates them returns after one
    [update()] per entry, and every registered display then holds what its
    subject holds: a display built on this [WeatherData] shows [t], [h] or
    [p] according to its class, and a pollen display shows 15. *)
Theorem set_measurements_brings_displays_in_step
    (w : world) (s : ref) (obs : list ref) (t0 p0 h0 q0 t p h q : pyval) :
  heap w !! s = Some (WeatherDataObj obs t0 p0 h0 q0) →
  Forall (λ o, well_typed_observer w o = true) obs →
  ∃ w',
    WeatherData_set_measurements s t p h q w = (Ok tt, w') ∧
    calls w' = calls w ++ obs ∧
    (∀ o, o ∈ obs → in_sync w' o) ∧
    (∀ o v, o ∈ obs →
       (heap w !! o = Some (TemperatureDisplayObj v s) →
        heap w' !! o = Some (TemperatureDisplayObj t s)) ∧
       (heap w !! o = Some (HumidityDisplayObj v s) →
        heap w' !! o = Some (HumidityDisplayObj h s)) ∧
       (heap w !! o = Some (PressureDisplayObj v s) →
        heap w' !! o = Some (PressureDisplayObj p s)) ∧
       (heap w !! o = Some (PollenDisplayObj v s) →
        heap w' !! o = Some (PollenDisplayObj (PyInt 15) s))).
Proof.
  intros Hs Hwt.
  rewrite (WeatherData_set_measurements_run _ _ _ _ _ _ _ t p h q Hs).
  set (w0 := World (<[s := WeatherDataObj obs t p h (PyInt 15)]> (heap w)) (stdout w) (calls w)).
  assert (∀ r, kind_at w0 r = kind_at w r) as Hk0.
  { intros r. unfold kind_at, w0. cbn [heap]. destruct (decide (r = s)) as [->|Hne].
    - by rewrite lookup_insert_eq, Hs.
    - by rewrite lookup_insert_ne. }
  destruct (run_updates_well_typed obs w0) as (w' & E & Hc).
  { eapply Forall_impl; [exact Hwt|]. intros o Ho. cbn beta in *.
    by rewrite (well_typed_kind _ _ Hk0). }
  exists w'. split; [done|]. split; [done|].
  pose proof (run_updates_in_sync _ _ _ E) as Hsync.
  split; [done|].
  assert (heap w' !! s = Some (WeatherDataObj obs t p h (PyInt 15))) as Hs'.
  { eapply run_updates_subject; [exact E| |done]. unfold w0. cbn [heap].
    by rewrite lookup_insert_eq. }
  intros o v Hin.
  destruct (Hsync o Hin) as (obj' & Ho' & Hshown).
  pose proof (shape_kind _ _ (run_updates_shape _ _ _ _ E) o) as Hk.
  rewrite Hk0 in Hk. unfold kind_at in Hk. rewrite Ho' in Hk.
  split_and!; intros Ho; rewrite Ho in Hk; cbn in Hk; injection Hk as Hc' Hsub;
    destruct obj'; try done; cbn in Hsub; injection Hsub as ->;
    cbn [shown source_value] in Hshown; rewrite Hs' in Hshown;
    injection Hshown as ->; done.
Qed.

(** X10.  Registration does not rebind a display: a display built on another
    [WeatherData] than the one it is registered with keeps pulling from the
    one it was built on.  After [set_measurements] on the subject it is
    registered with, it shows the measurement of its own subject, which the
    call has not changed. *)
Theorem display_pulls_from_the_subject_it_was_built_on
    (w : world) (s s2 o : ref) (obs obs2 : list ref) (v : pyval)
    (t0 p0 h0 q0 t p h q t2 p2 h2 q2 : pyval) :
  heap w !! s = Some (WeatherDataObj obs t0 p0 h0 q0) →
  Forall (λ o, well_typed_observer w o = true) obs →
  o ∈ obs → s2 ≠ s →
  heap w !! s2 = Some (WeatherDataObj obs2 t2 p2 h2 q2) →
  let w' := (WeatherData_set_measurements s t p h q w).2 in
  heap w' !! s2 = Some (WeatherDataObj obs2 t2 p2 h2 q2) ∧
  (heap w !! o = Some (TemperatureDisplayObj v s2) →
   heap w' !! o = Some (TemperatureDisplayObj t2 s2)) ∧
  (heap w !! o = Some (HumidityDisplayObj v s2) →
   heap w' !! o = Some (HumidityDisplayObj h2 s2)) ∧
  (heap w !! o = Some (PressureDisplayObj v s2) →
   heap w' !! o = Some (PressureDisplayObj p2 s2)) ∧
  (heap w !! o = Some (PollenDisplayObj v s2) →
   heap w' !! o = Some (PollenDisplayObj q2 s2)).
Proof.
  intros Hs Hwt Hin Hne Hs2 w'. unfold w'.
  rewrite (WeatherData_set_measurements_run _ _ _ _ _ _ _ t p h q Hs).
  set (w0 := World (<[s := WeatherDataObj obs t p h (PyInt 15)]> (heap w)) (stdout w) (calls w)).
  assert (∀ r, kind_at w0 r = kind_at w r) as Hk0.
  { intros r. unfold kind_at, w0. cbn [heap]. destruct (decide (r = s)) as [->|Hne'].
    - by rewrite lookup_insert_eq, Hs.
    - by rewrite lookup_insert_ne. }
  destruct (run_updates_well_typed obs w0) as (w1 & E & Hc).
  { eapply Forall_impl; [exact Hwt|]. intros x Hx. cbn beta in *.
    by rewrite (well_typed_kind _ _ Hk0). }
  rewrite E. cbn [snd].
  assert (heap w1 !! s2 = Some (WeatherDataObj obs2 t2 p2 h2 q2)) as Hs2'.
  { eapply run_updates_subject; [exact E| |done]. unfold w0. cbn [heap].
    by rewrite lookup_insert_ne. }
  split; [done|].
  destruct (run_updates_in_sync _ _ _ E o Hin) as (obj' & Ho' & Hshown).
  pose proof (shape_kind _ _ (run_updates_shape _ _ _ _ E) o) as Hk.
  rewrite Hk0 in Hk. unfold kind_at in Hk. rewrite Ho' in Hk.
  split_and!; intros Ho; rewrite Ho in Hk; cbn in Hk; injection Hk as Hc' Hsub;
    destruct obj'; try done; cbn in Hsub; injection Hsub as ->;
    cbn [shown source_value] in Hshown; rewrite Hs2' in Hshown;
    injection Hshown as ->; done.
Qed.

(** X8.  A broadcast that returned can be repeated at once: the second
    [notifyObservers()] returns too, invokes [update()] on the same entries
    in the same order, and leaves the store exactly as the first one left
    it. *)
Theorem notifyObservers_twice_changes_the_store_once
    (w w1 : world) (s : ref) (obs : list ref) :
  registry s w = Some obs →
  call_notifyObservers s w = (Ok tt, w1) →
  ∃ w2, call_notifyObservers s w1 = (Ok tt, w2) ∧
        heap w2 = heap w1 ∧
        calls w1 = calls w ++ obs ∧ calls w2 = calls w1 ++ obs.
Proof.
  intros Hreg E1. rewrite (call_notifyObservers_run _ _ _ Hreg) in E1.
  pose proof (run_updates_shape _ _ _ _ E1) as Hsh.
  assert (registry s w1 = Some obs) as Hreg1 by (by rewrite (registry_shape _ _ Hsh)).
  rewrite (call_notifyObservers_run _ _ _ Hreg1).
  destruct (run_updates_well_typed obs w1) as (w2 & E2 & Hc2).
  { eapply Forall_impl; [exact (run_updates_Ok_well_typed _ _ _ E1)|].
    intros o Ho. cbn beta in *. by rewrite (well_typed_shape _ _ Hsh). }
  exists w2. split_and!; [done| |  |done].
  - eapply run_updates_in_sync_noop; [|exact E2]. by eapply run_updates_in_sync.
  - destruct (run_updates_calls _ _ _ _ E1) as (k & Hk & Hc & Hok).
    rewrite Hok in Hc by done. by rewrite firstn_all in Hc.
Qed.

Lemma call_update_listener (o : ref) (w : world) :
  is_listener w o = true →
  call_update o w =
    (Ok tt, World (heap w) (stdout w +:+ listener_text w o) (calls w ++ [o])).
Proof.
  unfold is_listener, listener_text.
  destruct (heap w !! o) as [[obs t p h q|t s|h s|p s|q s|st obs|s|s]|] eqn:Hobj; try done.
  all: destruct (heap w !! s) as [[obs' t' p' h' q'|t' s'|h' s'|p' s'|q' s'|st' obs'|s'|s']|] eqn:Hs;
    try done.
  all: intros _; py_run; destruct st'; cbn.
  all: try reflexivity.
  all: rewrite string_app_nil_r; reflexivity.
Qed.

Lemma listener_text_heap (w w' : world) (o : ref) :
  heap w' = heap w → listener_text w' o = listener_text w o.
Proof. intros Hh. unfold listener_text. by rewrite Hh. Qed.

Lemma listeners_text_heap (w w' : world) (l : list ref) :
  heap w' = heap w → listeners_text w' l = listeners_text w l.
Proof.
  intros Hh. induction l as [|o l IH]; [done|].
  cbn [listeners_text]. by rewrite IH, (listener_text_heap _ _ _ Hh).
Qed.

Lemma is_listener_heap (w w' : world) (o : ref) :
  heap w' = heap w → is_listener w' o = is_listener w o.
Proof. intros Hh. unfold is_listener. by rewrite Hh. Qed.

Lemma run_updates_listeners (l : list ref) (w : world) :
  Forall (λ o, is_listener w o = true) l →
  run_updates l w =
    (Ok tt, World (heap w) (stdout w +:+ listeners_text w l) (calls w ++ l)).
Proof.
  revert w. induction l as [|o l IH]; intros w Hl.
  - cbn. rewrite string_app_nil_r, app_nil_r. by destruct w.
  - apply Forall_cons in Hl as [Ho Hl].
    cbn [run_updates listeners_text]. unfold bind.
    rewrite (call_update_listener _ _ Ho).
    set (w1 := World (heap w) (stdout w +:+ listener_text w o) (calls w ++ [o])).
    rewrite (IH w1).
    + rewrite (listeners_text_heap w w1) by done.
      unfold w1. cbn [heap stdout calls]. by rewrite string_app_assoc, <- app_assoc.
    + eapply Forall_impl; [exact Hl|]. intros x Hx. cbn beta in *.
      by rewrite (is_listener_heap w w1).
Qed.

(** X4.  [set_state(st)] on a [Button] whose registry holds listeners built on
    buttons returns after one [update()] per entry.  It changes nothing in
    the store but the state of the button, and the output grows by the lines
    of the listeners, in registry order: an [OnEventListener] built on this
    button prints its line when [st] is [ON] and nothing when it is [OFF],
    an [OffEventListener] the other way round. *)
Theorem set_state_speaks_through_matching_listeners
    (w : world) (b : ref) (obs : list ref) (st0 st : ButtonState) :
  heap w !! b = Some (ButtonObj st0 obs) →
  Forall (λ o, is_listener w o = true) obs →
  let w0 := World (<[b := ButtonObj st obs]> (heap w)) (stdout w) (calls w) in
  Button_set_state b st w =
    (Ok tt, World (heap w0) (stdout w +:+ listeners_text w0 obs) (calls w ++ obs)) ∧
  (∀ o, heap w !! o = Some (OnEventListenerObj b) →
        listener_text w0 o =
          match st with
          | ON => "THE BUTTON IS ON SO I AM DOING SOMETHING" +:+ newline
          | OFF => ""
          end) ∧
  (∀ o, heap w !! o = Some (OffEventListenerObj b) →
        listener_text w0 o =
          match st with
          | ON => ""
          | OFF => "THE BUTTON IS OFF SO I AM DOING SOMETHING" +:+ newline
          end).
Proof.
  intros Hb Hl w0.
  assert (∀ o x, heap w !! o = Some x → class_of x ≠ Button → heap w0 !! o = Some x) as Hkeep.
  { intros o x Ho Hc. unfold w0. cbn [heap]. rewrite lookup_insert_ne; [done|].
    intros <-. rewrite Hb in Ho. injection Ho as <-. by apply Hc. }
  assert (heap w0 !! b = Some (ButtonObj st obs)) as Hb0.
  { unfold w0. cbn [heap]. by rewrite lookup_insert_eq. }
  split_and!.
  - rewrite (Button_set_state_run _ _ _ _ st Hb). fold w0.
    rewrite run_updates_listeners; [done|].
    eapply Forall_impl; [exact Hl|]. intros o Ho. cbn beta in *.
    unfold is_listener in *.
    destruct (heap w !! o) as [x|] eqn:Hx; [|done].
    destruct x as [| | | | | |b'|b']; try done.
    all: rewrite (Hkeep _ _ Hx) by done.
    all: destruct (decide (b' = b)) as [->|Hne]; [by rewrite Hb0|].
    all: unfold w0; cbn [heap]; by rewrite lookup_insert_ne.
  - intros o Ho. unfold listener_text. rewrite (Hkeep _ _ Ho), Hb0 by done. by destruct st.
  - intros o Ho. unfold listener_text. rewrite (Hkeep _ _ Ho), Hb0 by done. by destruct st.
Qed.

End Subjects.

(** ** Registrations against removals *)

Lemma with_observers_same (obj : object) (obs : list ref) :
  attr_observers obj = Some obs → with_observers obs obj = Some obj.
Proof. destruct obj; by intros [= <-]. Qed.

Lemma with_observers_twice (l1 l2 : list ref) (obj obj1 : object) :
  with_observers l1 obj = Some obj1 → with_observers l2 obj1 = with_observers l2 obj.
Proof. destruct obj; by intros [= <-]. Qed.

Lemma world_insert_id (w : world) (s : ref) (sobj : object) :
  heap w !! s = Some sobj →
  World (<[s := sobj]> (heap w)) (stdout w) (calls w) = w.
Proof. intros Hs. rewrite insert_id by done. by destruct w. Qed.

Lemma register_n_times (n : nat) (s o : ref) (sobj : object) (obs : list ref) (w : world) :
  heap w !! s = Some sobj → attr_observers sobj = Some obs →
  ∃ sobj', with_observers (obs ++ replicate n o) sobj = Some sobj' ∧
    repeat_call n (call_registerObserver s o) w =
      (Ok tt, World (<[s := sobj']> (heap w)) (stdout w) (calls w)).
Proof.
  revert sobj obs w. induction n as [|n IH]; intros sobj obs w Hs Hobs.
  - exists sobj. cbn [replicate repeat_call]. rewrite app_nil_r.
    split; [by apply with_observers_same|]. unfold ret. by rewrite world_insert_id.
  - destruct (call_registerObserver_spec s o sobj obs w Hs Hobs) as (sobj1 & Hw1 & E1).
    destruct (IH sobj1 (obs ++ [o])
                (World (<[s := sobj1]> (heap w)) (stdout w) (calls w)))
      as (sobj' & Hw' & E).
    { cbn [heap]. apply lookup_insert_eq. }
    { by apply with_observers_fields in Hw1 as (_ & _ & ? & _). }
    exists sobj'. split.
    + rewrite (with_observers_twice _ _ _ _ Hw1) in Hw'.
      by rewrite <- app_assoc in Hw'.
    + cbn [repeat_call]. unfold bind. rewrite E1, E. cbn [heap stdout calls].
      by rewrite insert_insert_eq.
Qed.

Lemma remove_n_times (n : nat) (s o : ref) (sobj : object) (obs : list ref) (w : world) :
  o ∉ obs →
  heap w !! s = Some sobj → attr_observers sobj = Some (obs ++ replicate n o) →
  ∃ sobj', with_observers obs sobj = Some sobj' ∧
    repeat_call n (call_removeObserver s o) w =
      (Ok tt, World (<[s := sobj']> (heap w)) (stdout w) (calls w)).
Proof.
  intros Hni. revert sobj w. induction n as [|n IH]; intros sobj w Hs Hobs.
  - exists sobj. cbn [replicate repeat_call] in *. rewrite app_nil_r in Hobs.
    split; [by apply with_observers_same|]. unfold ret. by rewrite world_insert_id.
  - pose proof (call_removeObserver_spec s o sobj _ w Hs Hobs) as Hrm.
    cbn [replicate] in Hrm. rewrite list_remove_first in Hrm by done.
    destruct Hrm as (sobj1 & Hw1 & E1).
    destruct (IH sobj1 (World (<[s := sobj1]> (heap w)) (stdout w) (calls w)))
      as (sobj' & Hw' & E).
    { cbn [heap]. apply lookup_insert_eq. }
    { by apply with_observers_fields in Hw1 as (_ & _ & ? & _). }
    exists sobj'. split.
    + by rewrite (with_observers_twice _ _ _ _ Hw1) in Hw'.
    + cbn [repeat_call]. unfold bind. rewrite E1, E. cbn [heap stdout calls].
      by rewrite insert_insert_eq.
Qed.

(** X6.  On a subject whose registry does not hold [o], [n] calls
    [registerObserver(o)] all return and leave [n] entries [o] at the end of
    the registry; [n] calls [removeObserver(o)] then all return and give back
    the world as it was before the registrations, and one more
    [removeObserver(o)] raises [ValueError]. *)
Theorem n_registrations_take_n_removals
    (w : world) (s o : ref) (obs : list ref) (n : nat) :
  registry s w = Some obs → o ∉ obs →
  ∃ w1,
    repeat_call n (call_registerObserver s o) w = (Ok tt, w1) ∧
    registry s w1 = Some (obs ++ replicate n o) ∧
    repeat_call n (call_removeObserver s o) w1 = (Ok tt, w) ∧
    repeat_call (S n) (call_removeObserver s o) w1 = (Raise ValueError, w).
Proof.
  intros Hreg Hni. pose proof Hreg as (sobj & Hs & Hobs)%registry_Some.
  destruct (register_n_times n s o sobj obs w Hs Hobs) as (sobj1 & Hw1 & E1).
  set (w1 := World (<[s := sobj1]> (heap w)) (stdout w) (calls w)) in *.
  assert (attr_observers sobj1 = Some (obs ++ replicate n o)) as Hobs1.
  { by apply with_observers_fields in Hw1 as (_ & _ & ? & _). }
  destruct (remove_n_times n s o sobj1 obs w1 Hni) as (sobj2 & Hw2 & E2).
  { unfold w1. cbn [heap]. apply lookup_insert_eq. }
  { done. }
  assert (World (<[s := sobj2]> (heap w1)) (stdout w1) (calls w1) = w) as Hback.
  { unfold w1. cbn [heap stdout calls]. rewrite insert_insert_eq.
    rewrite (with_observers_twice _ _ _ _ Hw1), (with_observers_same _ _ Hobs) in Hw2.
    injection Hw2 as <-. by apply world_insert_id. }
  rewrite Hback in E2.
  exists w1. split_and!; [done| |done|].
  - unfold w1. by rewrite registry_insert.
  - replace (S n) with (n + 1) by lia.
    assert (∀ a b m w0, repeat_call (a + b) m w0 =
              (repeat_call a m ;; repeat_call b m) w0) as Hsplit.
    { intros a b m. induction a as [|a IHa]; intros w0; [done|].
      cbn [Nat.add repeat_call]. unfold bind. destruct (m w0) as [[[]| |] w0']; [|done..].
      rewrite IHa. done. }
    rewrite Hsplit. unfold bind at 1. rewrite E2. cbn [repeat_call]. unfold bind.
    pose proof (call_removeObserver_spec s o sobj obs w Hs Hobs) as Hrm.
    rewrite list_remove_absent in Hrm by done. by rewrite Hrm.
Qed.

(** X7.  [removeObserver] takes the oldest entry.  On a subject whose
    registry already holds [o], a [registerObserver(o)] followed by a
    [removeObserver(o)] does not give the registry back: the entry that was
    there is taken out and the new one stays at the end. *)
Theorem register_then_remove_moves_to_the_end
    (w : world) (s o : ref) (obs : list ref) :
  registry s w = Some obs → o ∈ obs →
  ∃ l1 l2 w1 w2,
    obs = l1 ++ o :: l2 ∧ (o ∉ l1) ∧
    call_registerObserver s o w = (Ok tt, w1) ∧
    call_removeObserver s o w1 = (Ok tt, w2) ∧
    registry s w2 = Some (l1 ++ l2 ++ [o]).
Proof.
  intros Hreg Hin. apply list_elem_of_split_l in Hin as (l1 & l2 & -> & Hni).
  destruct (call_registerObserver_registry s o _ w Hreg) as (w1 & E1 & Hreg1 & _).
  destruct (call_removeObserver_registry s o _ (l1 ++ l2 ++ [o]) w1 Hreg1)
    as (w2 & E2 & Hreg2 & _).
  { rewrite <- app_assoc. cbn [app]. by apply list_remove_first. }
  by exists l1, l2, w1, w2.
Qed.

(** ** Construction *)

Lemma alloc_constructs (obj : object) (w : world) :
  attr_observers obj = None → constructs (alloc obj) obj w.
Proof.
  intros Hobs. unfold constructs, alloc.
  assert (heap w !! fresh (dom (heap w)) = None) as Hfresh
    by apply not_elem_of_dom, is_fresh.
  eexists _, _. split; [reflexivity|]. cbn [heap stdout calls].
  split_and!; [done|apply lookup_insert_eq| | |done..].
  - intros x Hne. by rewrite lookup_insert_ne.
  - intros x. unfold registry. cbn [heap].
    destruct (decide (x = fresh (dom (heap w)))) as [->|Hne].
    + by rewrite lookup_insert_eq, Hfresh.
    + by rewrite lookup_insert_ne.
Qed.

(** X11.  Building an observer does not register it.  Each of the six
    constructors, on any argument, returns a new object holding [0.0] (for a
    display) and the subject it was given, and changes nothing else: no
    other object, no registry, no trace, no output. *)
Theorem observer_constructors_do_not_register (w : world) (s : ref) :
  constructs (TemperatureDisplay_init s) (TemperatureDisplayObj (PyFloat 0) s) w ∧
  constructs (HumidityDisplay_init s) (HumidityDisplayObj (PyFloat 0) s) w ∧
  constructs (PressureDisplay_init s) (PressureDisplayObj (PyFloat 0) s) w ∧
  constructs (PollenDisplay_init s) (PollenDisplayObj (PyFloat 0) s) w ∧
  constructs (OnEventListener_init s) (OnEventListenerObj s) w ∧
  constructs (OffEventListener_init s) (OffEventListenerObj s) w.
Proof. split_and!; by apply alloc_constructs. Qed.

Section Mistyped.

Context `{Interpreter}.

(** X12.  An observer can be built on any object, but its [update()] needs
    the getter of the annotated subject class.  On an observer whose subject
    is of another class (a display on a [Button], a listener on a
    [WeatherData], ...), [update()] is entered and raises [AttributeError]
    before it stores or prints anything. *)
Theorem update_on_a_wrong_subject_raises_AttributeError
    (w : world) (o s : ref) (obj sobj : object) :
  heap w !! o = Some obj → attr_subject obj = Some s →
  heap w !! s = Some sobj → lacks_getter (class_of obj) sobj = true →
  call_update o w =
    (Raise AttributeError, World (heap w) (stdout w) (calls w ++ [o])).
Proof.
  intros Hobj Hsub Hs Hlack.
  destruct obj as [obs t p h q|t s0|h s0|p s0|q s0|st obs|s0|s0]; cbn in Hsub, Hlack;
    try done; injection Hsub as ->.
  all: destruct sobj; cbn in Hlack; try done; by py_run.
Qed.

End Mistyped.

(** ** The further properties on concrete worlds *)

Lemma getters_return_the_stored_measurements_witness :
  heap abc_world !! 0 =
    Some (WeatherDataObj [1; 2; 3] (PyFloat 0) (PyFloat 0) (PyFloat 0) (PyFloat 0)) ∧
  (WeatherData_get_temperature 0
     (WeatherData_set_measurements (H := integral_interpreter) 0
        (PyFloat 60) (PyInt 105) (PyInt 100) (PyInt 123) abc_world).2).1
  = Ok (PyFloat 60).
Proof.
  split; [reflexivity|].
  destruct (getters_return_the_stored_measurements (H := integral_interpreter)
              abc_world 0 [1; 2; 3] (PyFloat 0) (PyFloat 0) (PyFloat 0) (PyFloat 0)
              (PyFloat 60) (PyInt 105) (PyInt 100) (PyInt 123) eq_refl) as (-> & _).
  reflexivity.
Defined.

Lemma get_state_returns_the_state_set_witness :
  heap button_world !! 0 = Some (ButtonObj ON [1; 2]) ∧
  (Button_get_state 0
     (Button_set_state (H := integral_interpreter) 0 OFF button_world).2).1 = Ok OFF.
Proof.
  split; [reflexivity|].
  destruct (get_state_returns_the_state_set (H := integral_interpreter)
              button_world 0 [1; 2] ON OFF eq_refl) as (_ & ->).
  reflexivity.
Defined.

Lemma set_measurements_brings_displays_in_step_witness :
  heap abc_world !! 0 =
    Some (WeatherDataObj [1; 2; 3] (PyFloat 0) (PyFloat 0) (PyFloat 0) (PyFloat 0)) ∧
  Forall (λ o, well_typed_observer abc_world o = true) [1; 2; 3] ∧
  ∃ w', WeatherData_set_measurements (H := integral_interpreter) 0
          (PyFloat 60) (PyInt 105) (PyInt 100) (PyInt 123) abc_world = (Ok tt, w') ∧
        heap w' !! 2 = Some (TemperatureDisplayObj (PyFloat 60) 0).
Proof.
  assert (Forall (λ o, well_typed_observer abc_world o = true) [1; 2; 3]) as Hwt
    by (repeat constructor).
  split; [reflexivity|]. split; [exact Hwt|].
  destruct (set_measurements_brings_displays_in_step (H := integral_interpreter)
              abc_world 0 [1; 2; 3] (PyFloat 0) (PyFloat 0) (PyFloat 0) (PyFloat 0)
              (PyFloat 60) (PyInt 105) (PyInt 100) (PyInt 123) eq_refl Hwt)
    as (w' & E & _ & _ & Hshow).
  exists w'. split; [exact E|].
  apply (Hshow 2 (PyFloat 0)); [|reflexivity].
  apply elem_of_cons. right. apply elem_of_cons. by left.
Defined.

Lemma set_state_speaks_through_matching_listeners_witness :
  heap button_world !! 0 = Some (ButtonObj ON [1; 2]) ∧
  Forall (λ o, is_listener button_world o = true) [1; 2] ∧
  stdout (Button_set_state (H := integral_interpreter) 0 OFF button_world).2
  = "THE BUTTON IS OFF SO I AM DOING SOMETHING" +:+ newline.
Proof.
  assert (Forall (λ o, is_listener button_world o = true) [1; 2]) as Hl
    by (repeat constructor).
  split; [reflexivity|]. split; [exact Hl|].
  destruct (set_state_speaks_through_matching_listeners (H := integral_interpreter)
              button_world 0 [1; 2] ON OFF eq_refl Hl) as (-> & _).
  reflexivity.
Defined.

Lemma notifyObservers_only_appends_witness :
  let r := call_notifyObservers (H := integral_interpreter) 0 mistyped_world in
  r = (Raise AttributeError, r.2) ∧
  dom (heap r.2) = dom (heap mistyped_world) ∧
  (∃ new, calls r.2 = calls mistyped_world ++ new).
Proof.
  intros r.
  assert (r = (Raise AttributeError, r.2)) as E by (vm_compute; reflexivity).
  destruct (notifyObservers_only_appends (H := integral_interpreter)
              mistyped_world r.2 0 (Raise AttributeError) E) as (Hd & _ & _ & Hc).
  split_and!; [exact E|exact Hd|exact Hc].
Defined.

Lemma n_registrations_take_n_removals_witness :
  registry 0 unregistered_world = Some [] ∧ (1 ∉ ([] : list nat)) ∧
  ∃ w1, repeat_call 3 (call_registerObserver 0 1) unregistered_world = (Ok tt, w1) ∧
        registry 0 w1 = Some [1; 1; 1] ∧
        repeat_call 3 (call_removeObserver 0 1) w1 = (Ok tt, unregistered_world) ∧
        repeat_call 4 (call_removeObserver 0 1) w1 = (Raise ValueError, unregistered_world).
Proof.
  split; [reflexivity|]. split; [apply not_elem_of_nil|].
  exact (n_registrations_take_n_removals unregistered_world 0 1 [] 3
           eq_refl (not_elem_of_nil 1)).
Defined.

Lemma register_then_remove_moves_to_the_end_witness :
  registry 0 abc_world = Some [1; 2; 3] ∧ 1 ∈ [1; 2; 3] ∧
  ∃ w1 w2, call_registerObserver 0 1 abc_world = (Ok tt, w1) ∧
           call_removeObserver 0 1 w1 = (Ok tt, w2) ∧
           registry 0 w2 = Some [2; 3; 1].
Proof.
  assert (1 ∈ [1; 2; 3]) as Hin by (apply elem_of_cons; by left).
  split; [reflexivity|]. split; [exact Hin|].
  destruct (register_then_remove_moves_to_the_end abc_world 0 1 [1; 2; 3] eq_refl Hin)
    as (l1 & l2 & w1 & w2 & Hobs & Hni & E1 & E2 & Hreg).
  exists w1, w2. split_and!; [exact E1|exact E2|].
  rewrite Hreg. f_equal.
  destruct l1 as [|x l1].
  - injection Hobs as <-. reflexivity.
  - injection Hobs as <- _. exfalso. apply Hni, elem_of_cons. by left.
Defined.

Lemma notifyObservers_twice_changes_the_store_once_witness :
  let w1 := (call_notifyObservers (H := integral_interpreter) 0 abc_world).2 in
  registry 0 abc_world = Some [1; 2; 3] ∧
  call_notifyObservers (H := integral_interpreter) 0 abc_world = (Ok tt, w1) ∧
  ∃ w2, call_notifyObservers (H := integral_interpreter) 0 w1 = (Ok tt, w2) ∧
        heap w2 = heap w1.
Proof.
  intros w1.
  assert (call_notifyObservers (H := integral_interpreter) 0 abc_world = (Ok tt, w1))
    as E by (vm_compute; reflexivity).
  split; [reflexivity|]. split; [exact E|].
  destruct (notifyObservers_twice_changes_the_store_once (H := integral_interpreter)
              abc_world w1 0 [1; 2; 3] eq_refl E) as (w2 & E2 & Hh & _).
  exists w2. split; [exact E2|exact Hh].
Defined.

Lemma entry_without_update_raises_AttributeError_witness :
  let w1 := (run_updates (H := integral_interpreter) [1] self_registered_world).2 in
  registry 0 self_registered_world = Some [1; 0; 2] ∧
  [1; 0; 2] !! 1 = Some 0 ∧
  run_updates (H := integral_interpreter) (take 1 [1; 0; 2]) self_registered_world
    = (Ok tt, w1) ∧
  heap w1 !! 0 = Some (WeatherDataObj [1; 0; 2] (PyInt 7) (PyInt 7) (PyInt 7) (PyInt 7)) ∧
  call_notifyObservers (H := integral_interpreter) 0 self_registered_world
    = (Raise AttributeError, w1) ∧
  calls w1 = [1].
Proof.
  intros w1.
  assert (run_updates (H := integral_interpreter) (take 1 [1; 0; 2]) self_registered_world
          = (Ok tt, w1)) as E1 by (vm_compute; reflexivity).
  destruct (entry_without_update_raises_AttributeError (H := integral_interpreter)
              self_registered_world w1 0 0 [1; 0; 2] 1
              (WeatherDataObj [1; 0; 2] (PyInt 7) (PyInt 7) (PyInt 7) (PyInt 7))
              eq_refl eq_refl E1 eq_refl eq_refl) as (_ & E & Hc).
  split_and!; [reflexivity|reflexivity|exact E1|reflexivity|exact E|].
  rewrite Hc. reflexivity.
Defined.

Lemma display_pulls_from_the_subject_it_was_built_on_witness :
  heap two_subjects_world !! 0 =
    Some (WeatherDataObj [1; 2] (PyFloat 0) (PyFloat 0) (PyFloat 0) (PyFloat 0)) ∧
  Forall (λ o, well_typed_observer two_subjects_world o = true) [1; 2] ∧
  1 ∈ [1; 2] ∧ 3 ≠ 0 ∧
  heap two_subjects_world !! 3 =
    Some (WeatherDataObj [] (PyInt 30) (PyInt 31) (PyInt 32) (PyInt 33)) ∧
  heap (WeatherData_set_measurements (H := integral_interpreter) 0
          (PyInt 5) (PyInt 5) (PyInt 5) (PyInt 5) two_subjects_world).2 !! 1
  = Some (TemperatureDisplayObj (PyInt 30) 3).
Proof.
  assert (Forall (λ o, well_typed_observer two_subjects_world o = true) [1; 2]) as Hwt
    by (repeat constructor).
  assert (1 ∈ [1; 2]) as Hin by (apply elem_of_cons; by left).
  assert (3 ≠ 0) as Hne by discriminate.
  split_and!; [reflexivity|exact Hwt|exact Hin|exact Hne|reflexivity|].
  destruct (display_pulls_from_the_subject_it_was_built_on (H := integral_interpreter)
              two_subjects_world 0 3 1 [1; 2] [] (PyFloat 0)
              (PyFloat 0) (PyFloat 0) (PyFloat 0) (PyFloat 0)
              (PyInt 5) (PyInt 5) (PyInt 5) (PyInt 5)
              (PyInt 30) (PyInt 31) (PyInt 32) (PyInt 33)
              eq_refl Hwt Hin Hne eq_refl) as (_ & Ht & _).
  exact (Ht eq_refl).
Defined.

Lemma update_on_a_wrong_subject_raises_AttributeError_witness :
  heap mistyped_world !! 2 = Some (TemperatureDisplayObj (PyFloat 0) 4) ∧
  heap mistyped_world !! 4 = Some (ButtonObj ON []) ∧
  lacks_getter TemperatureDisplay (ButtonObj ON []) = true ∧
  call_update (H := integral_interpreter) 2 mistyped_world
  = (Raise AttributeError,
     World (heap mistyped_world) (stdout mistyped_world) (calls mistyped_world ++ [2])).
Proof.
  split_and!; [reflexivity..|].
  exact (update_on_a_wrong_subject_raises_AttributeError (H := integral_interpreter)
           mistyped_world 2 4 (TemperatureDisplayObj (PyFloat 0) 4) (ButtonObj ON [])
           eq_refl eq_refl eq_refl eq_refl).
Defined.

(** ** Descriptions of decorated beverages and pizzas *)

(** X13.  The description tells the drink: two beverages with the same
    [get_description()] are the same base drink under the same condiments in
    the same order; and likewise for pizzas and their toppings. *)
Theorem get_description_tells_the_order :
  (∀ a b : Beverage,
     Beverage_get_description a = Beverage_get_description b → a = b) ∧
  (∀ a b : IPizza,
     IPizza_get_description a = IPizza_get_description b → a = b).
Proof.
  split.
  - induction a as [| | |a IH|a IH|a IH]; intros [| | |b|b|b] E;
      cbn [Beverage_get_description] in E; try done;
      try (description_eq E; done);
      f_equal; apply IH; description_eq E; done.
  - induction a as [|a IH|a IH]; intros [|b|b] E;
      cbn [IPizza_get_description] in E; try done;
      try (description_eq E; done);
      f_equal; apply IH; description_eq E; done.
Qed.
